(** * Bad Deed Validator: a shallow embedding of [validator.py]

    The development follows the layout of the Python module: the string,
    number, regular-expression, [difflib] and [datetime] operations the module
    calls come first, then [DeedData], [DeedParser], [CountyMatcher],
    [DeedValidator] and [BadDeedValidator], and finally the properties.

    Modelling choices.
    - Python [float] is IEEE binary64: Rocq's primitive floats, with the same
      operations and comparisons.
    - Python [str] is modelled by [string] over 7-bit ASCII characters.  The
      character classes, [upper], [strip] and [split] below are Python's on
      that range; characters above 127 are outside the model.
    - Exceptions are values of [exn]; code that can raise returns a [result].
      Methods that mutate the deed and may raise live in the monad [M], which
      keeps the mutated deed when an exception propagates, as Python does. *)

From Stdlib Require Import ZArith List String Ascii Bool Lia.
From Stdlib Require Import DecimalString.
From Stdlib Require Import Floats.
Import ListNotations.

#[local] Set Warnings "-inexact-float,-register-all".
#[local] Open Scope string_scope.
#[local] Open Scope Z_scope.

(* ================================================================== *)
(** ** Exceptions *)

Inductive exn : Type :=
| DateLogicError (msg : string)
| AmountMismatchError (msg : string)
| CountyLookupError (msg : string)
| ValueError
| IndexError
| AttributeError.

(** [class ValidationError(Exception)] and its three subclasses. *)
Definition is_ValidationError (e : exn) : bool :=
  match e with
  | DateLogicError _ | AmountMismatchError _ | CountyLookupError _ => true
  | _ => false
  end.

Definition is_CountyLookupError (e : exn) : bool :=
  match e with CountyLookupError _ => true | _ => false end.

Definition is_ValueError (e : exn) : bool :=
  match e with ValueError => true | _ => false end.

(** [str(e)] of an exception built from one message. *)
Definition str_exn (e : exn) : string :=
  match e with
  | DateLogicError m | AmountMismatchError m | CountyLookupError m => m
  | _ => ""
  end.

Inductive result (A : Type) : Type :=
| Ok (a : A)
| Raise (e : exn).

Arguments Ok {A} a.
Arguments Raise {A} e.

Definition rbind {A B} (r : result A) (k : A -> result B) : result B :=
  match r with Ok a => k a | Raise e => Raise e end.

(** [try: body except C: handler]. *)
Definition rcatch {A} (r : result A) (cls : exn -> bool) (h : exn -> result A)
  : result A :=
  match r with
  | Ok a => Ok a
  | Raise e => if cls e then h e else Raise e
  end.

Declare Scope result_scope.
Delimit Scope result_scope with result.
Notation "x <- c ;; k" := (rbind c (fun x => k))
  (at level 61, c at next level, right associativity) : result_scope.

(* ================================================================== *)
(** ** Python [str] operations on ASCII text *)

Module PyStr.

Definition code (c : ascii) : N := N_of_ascii c.

Definition between (lo hi : N) (c : ascii) : bool :=
  ((lo <=? code c) && (code c <=? hi))%N.

(** [str.isspace] on ASCII, also the class [\s]: TAB..CR, FS..US, space. *)
Definition is_space (c : ascii) : bool :=
  between 9 13 c || between 28 32 c.

(** The class [\d] on ASCII. *)
Definition is_digit (c : ascii) : bool := between 48 57 c.

Definition is_lower (c : ascii) : bool := between 97 122 c.
Definition is_upper (c : ascii) : bool := between 65 90 c.

(** The class [\w] on ASCII. *)
Definition is_word (c : ascii) : bool :=
  is_digit c || is_lower c || is_upper c || Ascii.eqb c "_".

Definition upper_char (c : ascii) : ascii :=
  if is_lower c then ascii_of_N (code c - 32) else c.

Definition lower_char (c : ascii) : ascii :=
  if is_upper c then ascii_of_N (code c + 32) else c.

Fixpoint upper (s : string) : string :=
  match s with
  | EmptyString => EmptyString
  | String c s' => String (upper_char c) (upper s')
  end.

Fixpoint lstrip (s : string) : string :=
  match s with
  | String c s' => if is_space c then lstrip s' else s
  | EmptyString => EmptyString
  end.

(** [rstrip]: a character is dropped when it is white space and everything
    after it has been dropped. *)
Fixpoint rstrip (s : string) : string :=
  match s with
  | EmptyString => EmptyString
  | String c s' =>
      match rstrip s' with
      | EmptyString => if is_space c then EmptyString else String c EmptyString
      | t => String c t
      end
  end.

Definition strip (s : string) : string := rstrip (lstrip s).

(** [s.replace(c, '')] for a one-character [c]. *)
Fixpoint remove_char (c : ascii) (s : string) : string :=
  match s with
  | EmptyString => EmptyString
  | String a s' =>
      if Ascii.eqb a c then remove_char c s' else String a (remove_char c s')
  end.

(** [s.split()]: the maximal runs of non-space characters.  [cur] is the word
    being read, if one has been started. *)
Fixpoint split_aux (s : string) (cur : option string) : list string :=
  match s with
  | EmptyString => match cur with Some w => [w] | None => [] end
  | String c s' =>
      if is_space c
      then match cur with
           | Some w => w :: split_aux s' None
           | None => split_aux s' None
           end
      else match cur with
           | Some w => split_aux s' (Some (w ++ String c EmptyString))
           | None => split_aux s' (Some (String c EmptyString))
           end
  end.

Definition split (s : string) : list string := split_aux s None.

(** [sub in s]. *)
Fixpoint contains (sub s : string) : bool :=
  String.prefix sub s
  || match s with
     | EmptyString => false
     | String _ s' => contains sub s'
     end.

(** The first [n] characters of [s]. *)
Definition take (n : nat) (s : string) : string := String.substring 0 n s.

(** [''.join(l)]. *)
Definition join (l : list string) : string :=
  fold_right String.append EmptyString l.

(** Truthiness of a string: non-empty. *)
Definition truthy (s : string) : bool :=
  match s with EmptyString => false | _ => true end.

(** Every character of [s] is in the class [p]. *)
Fixpoint all_chars (p : ascii -> bool) (s : string) : bool :=
  match s with
  | EmptyString => true
  | String c s' => p c && all_chars p s'
  end.

End PyStr.

(* ================================================================== *)
(** ** Python [int] and [float] *)

Module PyNum.

Definition digit_val (c : ascii) : Z := Z.of_N (PyStr.code c) - 48.

Definition all_digits (s : string) : bool :=
  PyStr.all_chars PyStr.is_digit s.

(** The characters of a number without sign or exponent. *)
Definition digit_or_dot (c : ascii) : bool :=
  PyStr.is_digit c || Ascii.eqb c ".".

(** Value of a digit string read after the prefix of value [acc]. *)
Fixpoint digits_val (s : string) (acc : Z) : Z :=
  match s with
  | EmptyString => acc
  | String c s' => digits_val s' (10 * acc + digit_val c)
  end.

(** [int(s)] on a string of decimal digits; any other text is a
    [ValueError] here (the parser only passes text matched by [\d{n}]). *)
Definition py_int (s : string) : result Z :=
  match s with
  | EmptyString => Raise ValueError
  | _ => if all_digits s then Ok (digits_val s 0) else Raise ValueError
  end.

(** The binary64 number nearest to [p / q] (ties to even), for [0 <= p] and
    [0 < q].  The quotient is computed with at least 64 significant bits and
    a sticky bit, then rounded once by [binary_normalize]. *)
Definition round_ratio (p q : Z) : float :=
  if p =? 0 then 0%float
  else
    let s := Z.max 0 (64 + Z.log2 q - Z.log2 p) in
    let n := p * 2 ^ s in
    let m := 2 * (n / q) + (if n mod q =? 0 then 0 else 1) in
    SF2Prim (binary_normalize prec emax m (- (s + 1)) false).

(** Splits [s] at its first period: the text before it, and the text after
    it when there is a period. *)
Fixpoint split_dot (s : string) : string * option string :=
  match s with
  | EmptyString => (EmptyString, None)
  | String c s' =>
      if Ascii.eqb c "." then (EmptyString, Some s')
      else let '(i, f) := split_dot s' in (String c i, f)
  end.

(** [float(s)] on text made of digits and periods, which is all the module
    ever converts: digits with at most one period and at least one digit,
    correctly rounded; anything else is a [ValueError]. *)
Definition py_float (s : string) : result float :=
  let '(i, f) := split_dot s in
  let f' := match f with Some t => t | None => EmptyString end in
  if all_digits i && all_digits f'
     && negb (String.eqb (i ++ f') EmptyString)
  then Ok (round_ratio (digits_val (i ++ f') 0)
                       (10 ^ Z.of_nat (String.length f')))
  else Raise ValueError.

(** [float(n)] for an integer [0 <= n < 2^63]. *)
Definition float_of_Z (n : Z) : float := PrimFloat.of_uint63 (Uint63.of_Z n).

(** Truthiness of a float: [x != 0.0] (so [-0.0] is false and NaN true). *)
Definition truthy (x : float) : bool := negb (PrimFloat.eqb x 0%float).

(** Decimal digits of a natural number. *)
Definition str_nat (n : Z) : string :=
  NilZero.string_of_uint (N.to_uint (Z.to_N n)).

(** [n] copies of the character [c]. *)
Fixpoint replicate (n : nat) (c : ascii) : string :=
  match n with
  | O => EmptyString
  | S n' => String c (replicate n' c)
  end.

(** [s] padded on the left with zeros to at least [w] characters. *)
Definition zfill (w : nat) (s : string) : string :=
  replicate (w - String.length s) "0" ++ s.

(** Inserts [,] between groups of three digits, counting from the right. *)
Fixpoint group3 (s : string) : string :=
  match s with
  | EmptyString => EmptyString
  | String c s' =>
      let n := String.length s' in
      if ((0 <? n) && (n mod 3 =? 0))%nat
      then String c (String "," (group3 s'))
      else String c (group3 s')
  end.

(** The integer nearest to [m * 2^e * 10^d], ties to even. *)
Definition round_scaled (m e : Z) (d : nat) : Z :=
  let num := m * 10 ^ Z.of_nat d in
  if 0 <=? e then num * 2 ^ e
  else
    let den := 2 ^ (- e) in
    let q := num / den in
    let r := num mod den in
    if (den <? 2 * r) || ((den =? 2 * r) && Z.odd q) then q + 1 else q.

(** [format(x, '.<d>f')], with [,] as thousands separator when [grp]. *)
Definition format_f (grp : bool) (d : nat) (x : float) : string :=
  let body (sgn : bool) (n : Z) :=
    let ds := zfill (S d) (str_nat n) in
    let il := (String.length ds - d)%nat in
    let ip := PyStr.take il ds in
    let fp := String.substring il d ds in
    (if sgn then "-" else "")
      ++ (if grp then group3 ip else ip)
      ++ (match d with O => "" | _ => "." ++ fp end) in
  match Prim2SF x with
  | S754_nan => "nan"
  | S754_infinity s => if s then "-inf" else "inf"
  | S754_zero s => body s 0
  | S754_finite s m e => body s (round_scaled (Zpos m) e d)
  end.

(** [format(x, '.0%')]. *)
Definition format_pct0 (x : float) : string :=
  format_f false 0 (x * 100)%float ++ "%".

End PyNum.

(* ================================================================== *)
(** ** Python [re]: the fragment the module's patterns use *)

Module Re.

(** Patterns.  Every repetition in [validator.py] is a greedy repetition of
    a one-character class ([[^:]*], [\s*], [\d+], [\w{2}], ...), so [Star]
    takes a class.  [Grp] is a capturing group; groups are reported in the
    order they close, which is their number when they are not nested. *)
Inductive regex : Type :=
| Eps
| Lit (c : ascii)
| Cls (p : ascii -> bool)
| Star (p : ascii -> bool)
| Seq (r1 r2 : regex)
| Alt (r1 r2 : regex)
| Grp (r : regex).

Definition Plus (p : ascii -> bool) : regex := Seq (Cls p) (Star p).

(** [(?:r)?] *)
Definition Opt (r : regex) : regex := Alt r Eps.

(** [p{n}] *)
Fixpoint Rep (n : nat) (p : ascii -> bool) : regex :=
  match n with
  | O => Eps
  | S n' => Seq (Cls p) (Rep n' p)
  end.

(** A literal word. *)
Fixpoint Str (s : string) : regex :=
  match s with
  | EmptyString => Eps
  | String c s' => Seq (Lit c) (Str s')
  end.

(** Character classes. *)
Definition one_of (c : ascii) : ascii -> bool := Ascii.eqb c.
Definition none_of (c : ascii) : ascii -> bool := fun a => negb (Ascii.eqb c a).
Definition non_space : ascii -> bool := fun a => negb (PyStr.is_space a).
Definition non_digit : ascii -> bool := fun a => negb (PyStr.is_digit a).

Section Matcher.

(** [re.IGNORECASE] *)
Variable ignorecase : bool.

Definition lit_eq (c a : ascii) : bool :=
  if ignorecase then Ascii.eqb (PyStr.lower_char c) (PyStr.lower_char a)
  else Ascii.eqb c a.

Context {R : Type}.

(** Greedy repetition: take one more character when possible and fall back
    to the continuation when the rest of the pattern fails after it. *)
Fixpoint star_k (p : ascii -> bool) (s : string) (k : string -> option R)
  : option R :=
  match s with
  | String a s' =>
      if p a
      then match star_k p s' k with
           | Some x => Some x
           | None => k s
           end
      else k s
  | EmptyString => k s
  end.

(** Backtracking matcher: [k] is the rest of the pattern, given the text not
    yet consumed and the groups closed so far. *)
Fixpoint match_k (r : regex) (s : string) (g : list string)
  (k : string -> list string -> option R) : option R :=
  match r with
  | Eps => k s g
  | Lit c =>
      match s with
      | String a s' => if lit_eq c a then k s' g else None
      | EmptyString => None
      end
  | Cls p =>
      match s with
      | String a s' => if p a then k s' g else None
      | EmptyString => None
      end
  | Star p => star_k p s (fun s' => k s' g)
  | Seq r1 r2 => match_k r1 s g (fun s1 g1 => match_k r2 s1 g1 k)
  | Alt r1 r2 =>
      match match_k r1 s g k with
      | Some x => Some x
      | None => match_k r2 s g k
      end
  | Grp r1 =>
      match_k r1 s g
        (fun s1 g1 =>
           k s1 (g1 ++ [PyStr.take (String.length s - String.length s1) s])%list)
  end.

End Matcher.

(** [re.match(r, s)]: the groups of the first match at the start of [s]. *)
Definition match_here (ic : bool) (r : regex) (s : string)
  : option (list string) :=
  match_k ic r s [] (fun _ g => Some g).

(** [re.search(r, s)]: the leftmost match. *)
Fixpoint search (ic : bool) (r : regex) (s : string) : option (list string) :=
  match match_here ic r s with
  | Some g => Some g
  | None =>
      match s with
      | String _ s' => search ic r s'
      | EmptyString => None
      end
  end.

(** [m.group(n)] for [n >= 1]. *)
Definition group (n : nat) (g : list string) : result string :=
  match nth_error g (Nat.pred n) with
  | Some s => Ok s
  | None => Raise IndexError
  end.

(** Number of groups of a pattern. *)
Fixpoint ngroups (r : regex) : nat :=
  match r with
  | Seq r1 r2 | Alt r1 r2 => (ngroups r1 + ngroups r2)%nat
  | Grp r1 => S (ngroups r1)
  | _ => O
  end.

(** No group under an alternative: every match closes every group. *)
Fixpoint groups_always (r : regex) : bool :=
  match r with
  | Seq r1 r2 => groups_always r1 && groups_always r2
  | Alt r1 r2 => (ngroups r1 =? 0)%nat && (ngroups r2 =? 0)%nat
  | Grp r1 => groups_always r1
  | _ => true
  end.

End Re.

(* ================================================================== *)
(** ** [difflib.SequenceMatcher(None, a, b).ratio()] *)

Module Difflib.

Definition chars := list ascii.

Fixpoint common_prefix (a b : chars) : nat :=
  match a, b with
  | x :: a', y :: b' => if Ascii.eqb x y then S (common_prefix a' b') else O
  | _, _ => O
  end.

(** Scan of the start positions [j, j+1, ...] in [b] for the block that
    starts at position [i] of [a] ([a] is the text from there on).  [best] is
    [(besti, bestj, bestsize)]; as in [find_longest_match], it changes only
    for a strictly longer block. *)
Fixpoint scan_b (a b : chars) (i j : nat) (best : nat * nat * nat)
  : nat * nat * nat :=
  match b with
  | [] => best
  | _ :: b' =>
      let k := common_prefix a b in
      let best' := if (snd best <? k)%nat then (i, j, k) else best in
      scan_b a b' i (S j) best'
  end.

Fixpoint scan_a (a b : chars) (i : nat) (best : nat * nat * nat)
  : nat * nat * nat :=
  match a with
  | [] => best
  | _ :: a' => scan_a a' b (S i) (scan_b a b i 0%nat best)
  end.

(** [find_longest_match] over the whole of [a] and [b] without junk: the
    longest common block, the one that starts earliest in [a] and, among
    those, earliest in [b]; size 0 when there is none. *)
Definition find_longest_match (a b : chars) : nat * nat * nat :=
  scan_a a b 0%nat (0, 0, 0)%nat.

(** Sum of the sizes of [get_matching_blocks]: the longest block, then the
    same to its left and to its right.  [n] bounds the depth of the
    recursion; [length a] is enough, since both sides are shorter than [a]. *)
Fixpoint matches (n : nat) (a b : chars) : nat :=
  match n with
  | O => O
  | S n' =>
      let '(i, j, k) := find_longest_match a b in
      match k with
      | O => O
      | _ =>
          (k + matches n' (firstn i a) (firstn j b)
             + matches n' (skipn (i + k) a) (skipn (j + k) b))%nat
      end
  end.

(** [ratio()]: [2.0 * matches / length], and [1.0] for two empty strings.
    Strings under 200 characters, where [difflib]'s automatic junk
    heuristic is off. *)
Definition ratio (a b : string) : float :=
  let la := list_ascii_of_string a in
  let lb := list_ascii_of_string b in
  let len := (List.length la + List.length lb)%nat in
  match len with
  | O => 1%float
  | _ =>
      (2 * PyNum.float_of_Z (Z.of_nat (matches (List.length la) la lb))
         / PyNum.float_of_Z (Z.of_nat len))%float
  end.

End Difflib.

(* ================================================================== *)
(** ** [datetime.datetime] *)

Record datetime : Type := mk_datetime {
  year : Z; month : Z; day : Z;
  hour : Z; minute : Z; second : Z; microsecond : Z
}.

Module DateTime.

Definition is_leap (y : Z) : bool :=
  (y mod 4 =? 0) && (negb (y mod 100 =? 0) || (y mod 400 =? 0)).

Definition days_in_month (y m : Z) : Z :=
  if m =? 2 then (if is_leap y then 29 else 28)
  else if (m =? 4) || (m =? 6) || (m =? 9) || (m =? 11) then 30
  else 31.

(** The constructor [datetime(y, m, d)]: it checks the ranges and sets the
    time of day to midnight. *)
Definition make (y m d : Z) : result datetime :=
  if (1 <=? y) && (y <=? 9999) && (1 <=? m) && (m <=? 12)
     && (1 <=? d) && (d <=? days_in_month y m)
  then Ok (mk_datetime y m d 0 0 0 0)
  else Raise ValueError.

Definition fields (t : datetime) : list Z :=
  [year t; month t; day t; hour t; minute t; second t; microsecond t].

(** Lexicographic order on the fields. *)
Fixpoint lex_gt (a b : list Z) : bool :=
  match a, b with
  | x :: a', y :: b' => (y <? x) || ((x =? y) && lex_gt a' b')
  | _, _ => false
  end.

(** [a > b] for two naive datetimes. *)
Definition gt (a b : datetime) : bool := lex_gt (fields a) (fields b).

Definition pad (w : nat) (n : Z) : string := PyNum.zfill w (PyNum.str_nat n).

(** [str(t.date())]: [YYYY-MM-DD]. *)
Definition str_date (t : datetime) : string :=
  pad 4 (year t) ++ "-" ++ pad 2 (month t) ++ "-" ++ pad 2 (day t).

(** [t.isoformat()]: the date, [T], the time of day, and the microseconds
    when they are not zero. *)
Definition isoformat (t : datetime) : string :=
  str_date t ++ "T"
    ++ pad 2 (hour t) ++ ":" ++ pad 2 (minute t) ++ ":" ++ pad 2 (second t)
    ++ (if microsecond t =? 0 then "" else "." ++ pad 6 (microsecond t)).

End DateTime.

(* ================================================================== *)
(** ** [class DeedData] *)

Record DeedData : Type := mk_DeedData {
  doc_id : option string;
  county_raw : option string;
  county_normalized : option string;
  state : option string;
  date_signed : option datetime;
  date_recorded : option datetime;
  grantor : option string;
  grantee : option string;
  amount_numeric : option float;
  amount_written : option string;
  apn : option string;
  status : option string;
  tax_rate : option float;
  errors : list string;
  warnings : list string
}.

(** [DeedData()] *)
Definition new_DeedData : DeedData :=
  mk_DeedData None None None None None None None None None None None None
    None [] [].

(** [deed.county_normalized = v] *)
Definition set_county_normalized (v : option string) (d : DeedData)
  : DeedData :=
  mk_DeedData (doc_id d) (county_raw d) v (state d) (date_signed d)
    (date_recorded d) (grantor d) (grantee d) (amount_numeric d)
    (amount_written d) (apn d) (status d) (tax_rate d) (errors d)
    (warnings d).

(** [deed.tax_rate = v] *)
Definition set_tax_rate (v : option float) (d : DeedData) : DeedData :=
  mk_DeedData (doc_id d) (county_raw d) (county_normalized d) (state d)
    (date_signed d) (date_recorded d) (grantor d) (grantee d)
    (amount_numeric d) (amount_written d) (apn d) (status d) v (errors d)
    (warnings d).

(** [deed.errors.append(m)] *)
Definition add_error (m : string) (d : DeedData) : DeedData :=
  mk_DeedData (doc_id d) (county_raw d) (county_normalized d) (state d)
    (date_signed d) (date_recorded d) (grantor d) (grantee d)
    (amount_numeric d) (amount_written d) (apn d) (status d) (tax_rate d)
    (errors d ++ [m])%list (warnings d).

(** [deed.warnings.append(m)] *)
Definition add_warning (m : string) (d : DeedData) : DeedData :=
  mk_DeedData (doc_id d) (county_raw d) (county_normalized d) (state d)
    (date_signed d) (date_recorded d) (grantor d) (grantee d)
    (amount_numeric d) (amount_written d) (apn d) (status d) (tax_rate d)
    (errors d) (warnings d ++ [m])%list.

(** Python values that appear in the dictionaries the module returns. *)
Inductive pyval : Type :=
| PyNone
| PyStr (s : string)
| PyFloat (x : float)
| PyInt (n : Z)
| PyList (l : list string)
| PyDict (d : list (string * pyval)).

Definition py_opt_str (o : option string) : pyval :=
  match o with Some s => PyStr s | None => PyNone end.

Definition py_opt_float (o : option float) : pyval :=
  match o with Some x => PyFloat x | None => PyNone end.

(** [d.isoformat() if d else None]; a [datetime] is always true. *)
Definition py_opt_iso (o : option datetime) : pyval :=
  match o with Some t => PyStr (DateTime.isoformat t) | None => PyNone end.

(** [DeedData.to_dict]: the dictionary, as its items in insertion order. *)
Definition to_dict (self : DeedData) : list (string * pyval) :=
  [ ("doc_id", py_opt_str (doc_id self));
    ("county_raw", py_opt_str (county_raw self));
    ("county_normalized", py_opt_str (county_normalized self));
    ("state", py_opt_str (state self));
    ("date_signed", py_opt_iso (date_signed self));
    ("date_recorded", py_opt_iso (date_recorded self));
    ("grantor", py_opt_str (grantor self));
    ("grantee", py_opt_str (grantee self));
    ("amount_numeric", py_opt_float (amount_numeric self));
    ("amount_written", py_opt_str (amount_written self));
    ("apn", py_opt_str (apn self));
    ("status", py_opt_str (status self));
    ("tax_rate", py_opt_float (tax_rate self));
    ("errors", PyList (errors self));
    ("warnings", PyList (warnings self)) ].

(** [d[key]]. *)
Fixpoint dict_get (d : list (string * pyval)) (key : string)
  : option pyval :=
  match d with
  | [] => None
  | (k, v) :: d' => if String.eqb k key then Some v else dict_get d' key
  end.

(* ================================================================== *)
(** ** [class DeedParser] *)

Module DeedParser.

Import Re.
#[local] Open Scope result_scope.

(** Concatenation of the parts of a pattern. *)
Fixpoint cat (l : list regex) : regex :=
  match l with
  | [] => Eps
  | [r] => r
  | r :: l' => Seq r (cat l')
  end.

Definition newline : ascii := "010"%char.

(** [<label>[^:]*:\s*(<value>)] *)
Definition labelled (label : string) (value : regex) : regex :=
  cat [Str label; Star (none_of ":"); Lit ":"; Star PyStr.is_space;
       Grp value].

(** [Doc[^:]*:\s*(\S+)] *)
Definition pat_doc_id : regex := labelled "Doc" (Plus non_space).

(** [County[^:]*:\s*([^|\n]+)] *)
Definition pat_county : regex :=
  labelled "County"
    (Plus (fun a => negb (Ascii.eqb a "|" || Ascii.eqb a newline))).

(** [State[^:]*:\s*(\w{2})] *)
Definition pat_state : regex := labelled "State" (Rep 2 PyStr.is_word).

(** [Grantor[^:]*:\s*([^\n]+)] *)
Definition pat_grantor : regex := labelled "Grantor" (Plus (none_of newline)).

(** [Grantee[^:]*:\s*([^\n]+)] *)
Definition pat_grantee : regex := labelled "Grantee" (Plus (none_of newline)).

(** [APN[^:]*:\s*(\S+)] *)
Definition pat_apn : regex := labelled "APN" (Plus non_space).

(** [Status[^:]*:\s*(\w+)] *)
Definition pat_status : regex := labelled "Status" (Plus PyStr.is_word).

(** [{pattern}[^\d]*(\d{4})-(\d{2})-(\d{2})] *)
Definition pat_date (pattern : string) : regex :=
  cat [Str pattern; Star non_digit; Grp (Rep 4 PyStr.is_digit); Lit "-";
       Grp (Rep 2 PyStr.is_digit); Lit "-"; Grp (Rep 2 PyStr.is_digit)].

(** [Amount[^:]*:\s*\$([\d,.]+)] *)
Definition pat_amount : regex :=
  cat [Str "Amount"; Star (none_of ":"); Lit ":"; Star PyStr.is_space;
       Lit "$";
       Grp (Plus (fun a => PyStr.is_digit a || Ascii.eqb a ","
                           || Ascii.eqb a "."))].

(** The pattern [\(( [^)]* (?:Million|Thousand) [^)]* )\)], written here
    with spaces between its parts. *)
Definition pat_written : regex :=
  cat [Lit "(";
       Grp (cat [Star (none_of ")"); Alt (Str "Million") (Str "Thousand");
                 Star (none_of ")")]);
       Lit ")"].

Definition _extract_field (text : string) (pattern : regex)
  : result (option string) :=
  match search true pattern text with
  | Some m => s <- group 1 m ;; Ok (Some (PyStr.strip s))
  | None => Ok None
  end.

Definition _parse_date (text : string) (pattern : string)
  : result (option datetime) :=
  match search true (pat_date pattern) text with
  | Some m =>
      rcatch
        (g1 <- group 1 m ;; y <- PyNum.py_int g1 ;;
         g2 <- group 2 m ;; mo <- PyNum.py_int g2 ;;
         g3 <- group 3 m ;; d <- PyNum.py_int g3 ;;
         t <- DateTime.make y mo d ;;
         Ok (Some t))
        is_ValueError (fun _ => Ok None)
  | None => Ok None
  end.

(** The [amount_numeric] part of [parse]. *)
Definition parse_amount_numeric (raw_text : string) : result (option float) :=
  match search false pat_amount raw_text with
  | Some amount_match =>
      rcatch
        (g <- group 1 amount_match ;;
         x <- PyNum.py_float (PyStr.remove_char "," g) ;;
         Ok (Some x))
        is_ValueError (fun _ => Ok None)
  | None => Ok None
  end.

(** The [amount_written] part of [parse]. *)
Definition parse_amount_written (raw_text : string)
  : result (option string) :=
  match search false pat_written raw_text with
  | Some written_match =>
      g <- group 1 written_match ;; Ok (Some (PyStr.strip g))
  | None => Ok None
  end.

Definition parse (raw_text : string) : result DeedData :=
  v_doc_id <- _extract_field raw_text pat_doc_id ;;
  v_county_raw <- _extract_field raw_text pat_county ;;
  v_state <- _extract_field raw_text pat_state ;;
  v_date_signed <- _parse_date raw_text "Date Signed" ;;
  v_date_recorded <- _parse_date raw_text "Date Recorded" ;;
  v_grantor <- _extract_field raw_text pat_grantor ;;
  v_grantee <- _extract_field raw_text pat_grantee ;;
  v_apn <- _extract_field raw_text pat_apn ;;
  v_status <- _extract_field raw_text pat_status ;;
  v_amount_numeric <- parse_amount_numeric raw_text ;;
  v_amount_written <- parse_amount_written raw_text ;;
  Ok (mk_DeedData v_doc_id v_county_raw None v_state v_date_signed
        v_date_recorded v_grantor v_grantee v_amount_numeric
        v_amount_written v_apn v_status None [] []).

End DeedParser.

(* ================================================================== *)
(** ** The reference table [counties.json] *)

Module County.

(** One entry [{"name": ..., "tax_rate": ...}]. *)
Record info : Type := mk_info { name : string; tax_rate : float }.

End County.

(* ================================================================== *)
(** ** [class CountyMatcher] *)

Module CountyMatcher.

(** [w[0]] as a string; [split] yields no empty word. *)
Definition first_char (w : string) : string :=
  match w with
  | String c _ => String c EmptyString
  | EmptyString => EmptyString
  end.

(** [''.join([w[0] for w in name.split()]).upper()] *)
Definition abbrev (name : string) : string :=
  PyStr.upper (PyStr.join (map first_char (PyStr.split name))).

(** [county_raw.replace('.', '').replace(' ', '')] *)
Definition squeeze (county_raw : string) : string :=
  PyStr.remove_char " " (PyStr.remove_char "." county_raw).

Definition exact_rule (county_raw : string) (c : County.info) : bool :=
  String.eqb county_raw (PyStr.upper (County.name c)).

Definition abbrev_rule (county_raw : string) (c : County.info) : bool :=
  String.eqb (squeeze county_raw) (abbrev (County.name c)).

Definition no_match_msg (county_raw : string) : string :=
  "No match for " ++ county_raw.

(** The [for] loop of [match_county] and the code after it.  [county_raw] is
    already stripped and in upper case. *)
Fixpoint match_loop (db : list County.info) (county_raw : string)
  (best_match : option string) (best_ratio : float)
  : result (option string * float) :=
  match db with
  | county_info :: rest =>
      let county_name := PyStr.upper (County.name county_info) in
      if exact_rule county_raw county_info
      then Ok (Some (County.name county_info), 1%float)
      else if abbrev_rule county_raw county_info
      then Ok (Some (County.name county_info), 0.95%float)
      else
        let ratio := Difflib.ratio county_raw county_name in
        if (best_ratio <? ratio)%float
        then match_loop rest county_raw (Some (County.name county_info)) ratio
        else match_loop rest county_raw best_match best_ratio
  | [] =>
      if (best_ratio <? 0.6)%float
      then Raise (CountyLookupError (no_match_msg county_raw))
      else Ok (best_match, best_ratio)
  end.

Definition match_county (counties_db : list County.info)
  (county_raw : option string) : result (option string * float) :=
  match county_raw with
  | None | Some EmptyString =>
      Raise (CountyLookupError "County name is empty")
  | Some raw =>
      match_loop counties_db (PyStr.upper (PyStr.strip raw)) None 0%float
  end.

(** [get_tax_rate].  Its argument is the name [match_county] returned; on
    [None] the call [county_name.upper()] fails. *)
Fixpoint get_tax_rate (counties_db : list County.info)
  (county_name : option string) : result float :=
  match counties_db with
  | county_info :: rest =>
      match county_name with
      | Some n =>
          if String.eqb (PyStr.upper (County.name county_info))
               (PyStr.upper n)
          then Ok (County.tax_rate county_info)
          else get_tax_rate rest county_name
      | None => Raise AttributeError
      end
  | [] =>
      Raise (CountyLookupError
               ("County not found: "
                  ++ match county_name with Some n => n | None => "None" end))
  end.

End CountyMatcher.

(* ================================================================== *)
(** ** Methods on a mutable deed *)

(** A method body: it reads and updates the deed and returns or raises.
    The deed keeps its updates when the body raises. *)
Definition M (A : Type) : Type := DeedData -> DeedData * result A.

Definition ret {A} (a : A) : M A := fun d => (d, Ok a).

Definition raise {A} (e : exn) : M A := fun d => (d, Raise e).

Definition bind {A B} (m : M A) (k : A -> M B) : M B :=
  fun d =>
    match m d with
    | (d', Ok a) => k a d'
    | (d', Raise e) => (d', Raise e)
    end.

Definition get : M DeedData := fun d => (d, Ok d).

Definition modify (f : DeedData -> DeedData) : M unit :=
  fun d => (f d, Ok tt).

Definition lift {A} (r : result A) : M A := fun d => (d, r).

(** [try: m except C as e: h e] *)
Definition try_except {A} (m : M A) (cls : exn -> bool) (h : exn -> M A)
  : M A :=
  fun d =>
    match m d with
    | (d', Raise e) => if cls e then h e d' else (d', Raise e)
    | r => r
    end.

Declare Scope deed_scope.
Delimit Scope deed_scope with deed.
Notation "x <- c ;; k" := (bind c (fun x => k))
  (at level 61, c at next level, right associativity) : deed_scope.
Notation "c ;; k" := (bind c (fun _ => k))
  (at level 61, right associativity) : deed_scope.

(* ================================================================== *)
(** ** [class DeedValidator] *)

Module DeedValidator.

Import Re.

(** [(\d+(?:\.\d+)?)\s*<unit>] *)
Definition pat_number (unit : string) : regex :=
  DeedParser.cat
    [Grp (Seq (Plus PyStr.is_digit)
              (Opt (Seq (Lit ".") (Plus PyStr.is_digit))));
     Star PyStr.is_space; Str unit].

(** One of the two [if] blocks of [_parse_written_amount]: the amount after
    adding the component for [unit], worth [scale]. *)
Definition add_component (written unit : string) (scale amount : float)
  : result float :=
  if PyStr.contains unit written then
    match search false (pat_number unit) written with
    | Some m =>
        (g <- group 1 m ;;
         x <- PyNum.py_float g ;;
         Ok (amount + x * scale)%float)%result
    | None => Ok amount
    end
  else Ok amount.

Definition _parse_written_amount (written : string) : result (option float) :=
  (amount <- add_component written "Million" 1000000 0 ;;
   amount <- add_component written "Thousand" 1000 amount ;;
   Ok (if (0 <? amount)%float then Some amount else None))%result.

Definition date_logic_msg (recorded signed : datetime) : string :=
  "Date logic violation: Recorded " ++ DateTime.str_date recorded
    ++ " is before Signed " ++ DateTime.str_date signed.

Definition amount_mismatch_msg (numeric : float) (written : string)
  (discrepancy : float) : string :=
  "Amount mismatch: $" ++ PyNum.format_f true 2 numeric ++ " vs " ++ written
    ++ " (diff: $" ++ PyNum.format_f true 2 discrepancy ++ ")".

Definition low_confidence_msg (confidence : float) : string :=
  "Low confidence county match: " ++ PyNum.format_pct0 confidence.

Definition could_not_parse_msg (written : string) : string :=
  "Could not parse: " ++ written.

#[local] Open Scope deed_scope.

Definition _validate_date_logic : M unit :=
  deed <- get ;;
  match date_signed deed, date_recorded deed with
  | Some signed, Some recorded =>
      if DateTime.gt recorded signed
      then raise (DateLogicError (date_logic_msg recorded signed))
      else ret tt
  | _, _ => ret tt
  end.

(** [not x] for an optional float and for an optional string. *)
Definition not_float (x : option float) : bool :=
  match x with Some v => negb (PyNum.truthy v) | None => true end.

Definition not_str (x : option string) : bool :=
  match x with Some s => negb (PyStr.truthy s) | None => true end.

Definition _validate_amount_reconciliation : M unit :=
  deed <- get ;;
  match amount_numeric deed, amount_written deed with
  | Some numeric, Some written =>
      if not_float (Some numeric) || not_str (Some written) then ret tt
      else
        written_num <- lift (_parse_written_amount written) ;;
        match written_num with
        | None => modify (add_warning (could_not_parse_msg written))
        | Some w =>
            let discrepancy := abs (numeric - w)%float in
            if (0.01 <? discrepancy)%float
            then raise (AmountMismatchError
                          (amount_mismatch_msg numeric written discrepancy))
            else ret tt
        end
  | _, _ => ret tt
  end.

Section WithMatcher.

(** [self.matcher.counties_db] *)
Variable counties_db : list County.info.

Definition _enrich_county : M unit :=
  try_except
    (deed <- get ;;
     if negb (not_str (county_raw deed)) then
       r <- lift (CountyMatcher.match_county counties_db (county_raw deed)) ;;
       let '(normalized, confidence) := r in
       modify (set_county_normalized normalized) ;;
       rate <- lift (CountyMatcher.get_tax_rate counties_db normalized) ;;
       modify (set_tax_rate (Some rate)) ;;
       if (confidence <? 0.9)%float
       then modify (add_warning (low_confidence_msg confidence))
       else ret tt
     else ret tt)
    is_CountyLookupError
    (fun e => modify (add_warning (str_exn e))).

(** The body of [validate]: the [try] statement. *)
Definition validate_body : M unit :=
  try_except
    (_validate_date_logic ;;
     _validate_amount_reconciliation ;;
     _enrich_county)
    is_ValidationError
    (fun e => modify (add_error (str_exn e))).

(** [validate] returns the deed it was given, after the updates. *)
Definition validate (deed : DeedData) : result DeedData :=
  match validate_body deed with
  | (deed', Ok _) => Ok deed'
  | (_, Raise e) => Raise e
  end.

End WithMatcher.

End DeedValidator.

(* ================================================================== *)
(** ** [class BadDeedValidator] *)

Module BadDeedValidator.

Section WithTable.

(** The table loaded from [counties_file]. *)
Variable counties_db : list County.info.

Definition process_deed (raw_ocr_text : string) : result DeedData :=
  (deed <- DeedParser.parse raw_ocr_text ;;
   DeedValidator.validate counties_db deed)%result.

(** ['APPROVED' if not deed.errors else 'REJECTED'] *)
Definition report_status (deed : DeedData) : string :=
  match errors deed with [] => "APPROVED" | _ => "REJECTED" end.

(** The dictionary [process_and_report] builds from the validated deed. *)
Definition report (deed : DeedData) : list (string * pyval) :=
  [ ("status", PyStr (report_status deed));
    ("deed", PyDict (to_dict deed));
    ("validation_summary",
      PyDict [ ("errors", PyList (errors deed));
               ("warnings", PyList (warnings deed));
               ("error_count", PyInt (Z.of_nat (List.length (errors deed))));
               ("warning_count",
                 PyInt (Z.of_nat (List.length (warnings deed)))) ]) ].

Definition process_and_report (raw_ocr_text : string)
  : result (list (string * pyval)) :=
  (deed <- process_deed raw_ocr_text ;; Ok (report deed))%result.

End WithTable.

End BadDeedValidator.

(* ================================================================== *)
(** ** Specification vocabulary *)

(** What a pattern matches, as a relation: [run ic r s g s' g'] says that
    [r] can match a prefix of [s], leaving [s'], and that the groups closed
    on the way extend [g] to [g'].  The matcher [Re.match_k] only ever
    returns what the relation allows. *)
Module ReSem.

Import Re.

Inductive run (ic : bool)
  : regex -> string -> list string -> string -> list string -> Prop :=
| run_eps s g : run ic Eps s g s g
| run_lit c a s g :
    lit_eq ic c a = true -> run ic (Lit c) (String a s) g s g
| run_cls (p : ascii -> bool) a s g :
    p a = true -> run ic (Cls p) (String a s) g s g
| run_star_stop p s g : run ic (Star p) s g s g
| run_star_step (p : ascii -> bool) a s s' g :
    p a = true -> run ic (Star p) s g s' g ->
    run ic (Star p) (String a s) g s' g
| run_seq r1 r2 s g s1 g1 s2 g2 :
    run ic r1 s g s1 g1 -> run ic r2 s1 g1 s2 g2 ->
    run ic (Seq r1 r2) s g s2 g2
| run_alt_l r1 r2 s g s' g' :
    run ic r1 s g s' g' -> run ic (Alt r1 r2) s g s' g'
| run_alt_r r1 r2 s g s' g' :
    run ic r2 s g s' g' -> run ic (Alt r1 r2) s g s' g'
| run_grp r s g s1 g1 :
    run ic r s g s1 g1 ->
    run ic (Grp r) s g s1
      (g1 ++ [PyStr.take (String.length s - String.length s1) s])%list.

End ReSem.

(** Vocabulary for the matcher's properties. *)
Module CountySpec.

Import CountyMatcher.

(** The similarity ratio [match_county] computes for an entry. *)
Definition fuzzy (r : string) (c : County.info) : float :=
  Difflib.ratio r (PyStr.upper (County.name c)).

(** The exact or the abbreviation rule fires on the entry. *)
Definition fires (r : string) (c : County.info) : bool :=
  exact_rule r c || abbrev_rule r c.

Definition rule_fires (db : list County.info) (r : string) : Prop :=
  exists c, In c db /\ fires r c = true.

Definition no_rule (db : list County.info) (r : string) : Prop :=
  forall c, In c db -> fires r c = false.

(** [best] is the best ratio over the table, reached at the entry named
    [bm]; with no entry of positive ratio it is [0], reached nowhere. *)
Definition is_best (db : list County.info) (r : string)
  (bm : option string) (best : float) : Prop :=
  (forall c, In c db -> (best <? fuzzy r c)%float = false)
  /\ ((bm = None /\ best = 0%float)
      \/ exists c, In c db /\ bm = Some (County.name c) /\ best = fuzzy r c).

(** [n] is the name of an entry of the table. *)
Definition known (db : list County.info) (n : string) : Prop :=
  exists c, In c db /\ County.name c = n.

End CountySpec.

(** Vocabulary for [difflib]. *)
Module DifflibSpec.

(** A block [(i, j, k)] lies inside a text of length [n]. *)
Definition inside (n : nat) (blk : nat * nat * nat) : Prop :=
  (fst (fst blk) + snd blk <= n)%nat.

End DifflibSpec.

(** Vocabulary for dates. *)
Module DateSpec.

(** The fields of [t] are those of a calendar date at midnight. *)
Definition calendar_date (t : datetime) : Prop :=
  1 <= year t <= 9999 /\ 1 <= month t <= 12
  /\ 1 <= day t <= DateTime.days_in_month (year t) (month t)
  /\ hour t = 0 /\ minute t = 0 /\ second t = 0 /\ microsecond t = 0.

(** Every field of [t] is in the range [datetime] allows. *)
Definition in_range (t : datetime) : Prop :=
  1 <= year t <= 9999 /\ 1 <= month t <= 12 /\ 1 <= day t <= 31
  /\ 0 <= hour t < 24 /\ 0 <= minute t < 60 /\ 0 <= second t < 60
  /\ 0 <= microsecond t < 1000000.

(** A number that grows with time: microseconds since the start of a
    calendar in which every month has 31 days. *)
Definition stamp (t : datetime) : Z :=
  (((((year t * 12 + (month t - 1)) * 31 + (day t - 1)) * 24 + hour t) * 60
      + minute t) * 60 + second t) * 1000000 + microsecond t.

End DateSpec.

(** Statements of the specification that the code does not satisfy as they
    are written; each is compared with the code below. *)
Module SpecText.

Import DeedValidator.

(** Jurisdiction enrichment runs even when an earlier check failed. *)
Definition enrichment_runs_regardless : Prop :=
  forall db deed e,
    _validate_date_logic deed = (deed, Raise e) ->
    validate db deed
    = Ok (fst (_enrich_county db (add_error (str_exn e) deed))).

(** With the numeric amount [N] present and the written amount parsing to
    [W], the amount check raises exactly when [|N - W| > 0.01]. *)
Definition amount_mismatch_iff : Prop :=
  forall deed N w W,
    amount_numeric deed = Some N -> amount_written deed = Some w ->
    _parse_written_amount w = Ok (Some W) ->
    ((exists msg, _validate_amount_reconciliation deed
                  = (deed, Raise (AmountMismatchError msg)))
     <-> (0.01 <? abs (N - W))%float = true).

(** [$1,000,000.00] against [Two Million] is an amount mismatch. *)
Definition two_million_mismatch : Prop :=
  forall deed,
    amount_numeric deed = Some 1000000%float ->
    amount_written deed = Some "Two Million" ->
    exists msg, _validate_amount_reconciliation deed
                = (deed, Raise (AmountMismatchError msg)).

(** A raw name equal to an entry's name up to case is matched to that entry
    with confidence 1.0, whatever the other entries are. *)
Definition exact_rule_precedence : Prop :=
  forall db raw c,
    raw <> "" -> In c db ->
    PyStr.upper raw = PyStr.upper (County.name c) ->
    CountyMatcher.match_county db (Some raw)
    = Ok (Some (County.name c), 1%float).

(** A date is serialized as its calendar date, with no time of day. *)
Definition dates_without_time : Prop :=
  forall deed t,
    date_signed deed = Some t ->
    dict_get (to_dict deed) "date_signed" = Some (PyStr (DateTime.str_date t)).

End SpecText.

(** The keys of the optional fields of a deed that are unset. *)
Definition unset_key {A} (key : string) (field : option A) : list string :=
  match field with None => [key] | Some _ => [] end.

Definition unset_keys (d : DeedData) : list string :=
  (unset_key "doc_id" (doc_id d) ++ unset_key "county_raw" (county_raw d)
   ++ unset_key "county_normalized" (county_normalized d)
   ++ unset_key "state" (state d) ++ unset_key "date_signed" (date_signed d)
   ++ unset_key "date_recorded" (date_recorded d)
   ++ unset_key "grantor" (grantor d) ++ unset_key "grantee" (grantee d)
   ++ unset_key "amount_numeric" (amount_numeric d)
   ++ unset_key "amount_written" (amount_written d)
   ++ unset_key "apn" (apn d) ++ unset_key "status" (status d)
   ++ unset_key "tax_rate" (tax_rate d))%list.

(** Concrete inputs. *)
Module Samples.

Definition santa_clara : County.info := County.mk_info "Santa Clara" 0.0125.

Definition db_santa_clara : list County.info := [santa_clara].

Definition db_los_angeles : list County.info :=
  [County.mk_info "Los Angeles" 0.0125; County.mk_info "LA" 0.01].

Definition jan_05 : datetime := mk_datetime 2020 1 5 0 0 0 0.
Definition jan_10 : datetime := mk_datetime 2020 1 10 0 0 0 0.

(** Signed on 2020-01-05 and recorded on 2020-01-10, in Santa Clara. *)
Definition deed_recorded_later : DeedData :=
  mk_DeedData None (Some "Santa Clara") None None (Some jan_05) (Some jan_10)
    None None None None None None None [] [].

(** A deed with the two amounts and nothing else. *)
Definition deed_amounts (numeric : float) (written : string) : DeedData :=
  mk_DeedData None None None None None None None None (Some numeric)
    (Some written) None None None [] [].

(** A deed with a raw county name and nothing else. *)
Definition deed_county (raw : string) : DeedData :=
  mk_DeedData None (Some raw) None None None None None None None None None
    None None [] [].

Definition text_dates : string :=
  "Date Signed: 2020-01-05 Date Recorded: 2020-01-10".

(** The deed [parse] extracts from [text_dates]. *)
Definition deed_dates : DeedData :=
  mk_DeedData None None None None (Some jan_05) (Some jan_10) None None None
    None None None None [] [].

Definition text_two_million : string := "Amount: $1,000,000.00 (Two Million)".

Definition text_bad_fields : string :=
  "Date Signed: 2020-13-05 Amount: $1.2.3 Status: DRAFT".

End Samples.

(** Vocabulary for the fields of a deed. *)
Module DeedSpec.

(** The fields [parse] fills in, which later stages only read. *)
Definition extracted (d : DeedData) :=
  (doc_id d, county_raw d, state d, date_signed d, date_recorded d,
   grantor d, grantee d, amount_numeric d, amount_written d, apn d, status d).

(** What the validation stage does to a deed: it appends [e] to the errors
    and [w] to the warnings and, when [upd] is given, sets the normalized
    county and the tax rate. *)
Definition annotate (e w : list string)
  (upd : option (option string * option float)) (d : DeedData) : DeedData :=
  mk_DeedData (doc_id d) (county_raw d)
    (match upd with Some (cn, _) => cn | None => county_normalized d end)
    (state d) (date_signed d) (date_recorded d) (grantor d) (grantee d)
    (amount_numeric d) (amount_written d) (apn d) (status d)
    (match upd with Some (_, tr) => tr | None => tax_rate d end)
    (errors d ++ e)%list (warnings d ++ w)%list.

(** The dates of a deed, when present, are calendar dates, as the dates
    [parse] produces are. *)
Definition calendar_dates (d : DeedData) : Prop :=
  (forall t, date_signed d = Some t -> DateSpec.calendar_date t)
  /\ (forall t, date_recorded d = Some t -> DateSpec.calendar_date t).

(** [DateTime.pad w n] is [w] digits that read back as [n]. *)
Definition pad_reads_back (w : nat) (n : Z) : bool :=
  PyNum.all_digits (DateTime.pad w n)
  && (String.length (DateTime.pad w n) =? w)%nat
  && (PyNum.digits_val (DateTime.pad w n) 0 =? n).

(** The numbers [0 .. n-1]. *)
Definition upto (n : nat) : list Z := map Z.of_nat (seq 0 n).

End DeedSpec.

(* ================================================================== *)
(** * Properties *)

(** ** Strings *)

Module PyStrFacts.

Import PyStr.

(** [split] yields no empty word, so [w[0]] is defined on each word. *)
Lemma split_aux_nonempty : forall s cur w,
  (forall c, cur = Some c -> c <> "") ->
  In w (split_aux s cur) -> w <> "".
Proof.
  induction s as [|a s IH]; intros cur w Hc; simpl.
  - destruct cur as [c|]; [|intros []].
    intros [<-|[]]. now apply Hc.
  - destruct (is_space a).
    + destruct cur as [c|].
      * intros [<-|H]; [now apply Hc|].
        apply (IH None w); [discriminate | exact H].
      * apply IH. discriminate.
    + destruct cur as [c|]; apply IH; intros c' E; inversion E; subst.
      * now destruct c.
      * discriminate.
Qed.

Lemma split_nonempty s w : In w (split s) -> w <> "".
Proof. apply split_aux_nonempty. discriminate. Qed.

(** Removing the commas from digits, commas and periods leaves digits and
    periods, the only text [float] is applied to. *)
Lemma remove_comma_chars g :
  all_chars (fun a => is_digit a || Ascii.eqb a "," || Ascii.eqb a ".") g
  = true ->
  all_chars PyNum.digit_or_dot (remove_char "," g) = true.
Proof.
  induction g as [|a g IH]; simpl; [reflexivity|].
  intros H. apply andb_true_iff in H as [Ha Hg].
  destruct (Ascii.eqb a ",") eqn:E; [now apply IH|].
  simpl. rewrite (IH Hg), andb_true_r.
  unfold PyNum.digit_or_dot. rewrite orb_false_r in Ha. exact Ha.
Qed.

End PyStrFacts.

(** ** The matcher only returns what a pattern allows *)

Module ReFacts.
Import Re ReSem.

Lemma star_k_sound ic {R} (p : ascii -> bool) (k : string -> option R) g :
  forall s x, star_k p s k = Some x ->
  exists s', run ic (Star p) s g s' g /\ k s' = Some x.
Proof.
  induction s as [|a s IH]; simpl; intros x H.
  - exists EmptyString. split; [constructor | exact H].
  - destruct (p a) eqn:Hp.
    + destruct (star_k p s k) as [y|] eqn:Hs.
      * inversion H; subst y. destruct (IH x eq_refl) as (s' & Hr & Hk).
        exists s'. split; [now apply run_star_step | exact Hk].
      * exists (String a s). split; [constructor | exact H].
    + exists (String a s). split; [constructor | exact H].
Qed.

Lemma match_k_sound ic {R} :
  forall r s g (k : string -> list string -> option R) x,
  match_k ic r s g k = Some x ->
  exists s' g', run ic r s g s' g' /\ k s' g' = Some x.
Proof.
  induction r as [ |c|p|p|r1 IH1 r2 IH2|r1 IH1 r2 IH2|r IH];
    simpl; intros s g k x H.
  - exists s, g. split; [constructor | exact H].
  - destruct s as [|a s]; [discriminate|].
    destruct (lit_eq ic c a) eqn:E; [|discriminate].
    exists s, g. split; [now constructor | exact H].
  - destruct s as [|a s]; [discriminate|].
    destruct (p a) eqn:E; [|discriminate].
    exists s, g. split; [now constructor | exact H].
  - destruct (star_k_sound ic p (fun s' => k s' g) g s x H) as (s' & Hr & Hk).
    exists s', g. split; assumption.
  - destruct (IH1 _ _ _ _ H) as (s1 & g1 & Hr1 & H1).
    destruct (IH2 _ _ _ _ H1) as (s2 & g2 & Hr2 & H2).
    exists s2, g2. split; [econstructor; eassumption | exact H2].
  - destruct (match_k ic r1 s g k) as [y|] eqn:E.
    + inversion H; subst y. destruct (IH1 _ _ _ _ E) as (s' & g' & Hr & Hk).
      exists s', g'. split; [now apply run_alt_l | exact Hk].
    + destruct (IH2 _ _ _ _ H) as (s' & g' & Hr & Hk).
      exists s', g'. split; [now apply run_alt_r | exact Hk].
  - destruct (IH _ _ _ _ H) as (s1 & g1 & Hr & Hk).
    eexists _, _. split; [apply run_grp; exact Hr | exact Hk].
Qed.

Lemma match_here_sound ic r s m :
  match_here ic r s = Some m -> exists s', run ic r s [] s' m.
Proof.
  unfold match_here. intros H.
  destruct (match_k_sound ic r s [] _ m H) as (s' & g' & Hr & Hk).
  inversion Hk; subst. now exists s'.
Qed.

Lemma search_sound ic r : forall s m,
  search ic r s = Some m -> exists s0 s', run ic r s0 [] s' m.
Proof.
  induction s as [|a s IH]; simpl; intros m H.
  - destruct (match_here ic r EmptyString) eqn:E; [|discriminate].
    inversion H; subst. destruct (match_here_sound _ _ _ _ E) as (s' & Hr).
    now exists EmptyString, s'.
  - destruct (match_here ic r (String a s)) eqn:E.
    + inversion H; subst. destruct (match_here_sound _ _ _ _ E) as (s' & Hr).
      now exists (String a s), s'.
    + now apply IH.
Qed.

Lemma run_no_groups ic r s g s' g' :
  run ic r s g s' g' -> ngroups r = 0%nat -> g' = g.
Proof.
  induction 1; simpl; intros Hn; try reflexivity; try discriminate.
  - rewrite IHrun2, IHrun1 by lia. reflexivity.
  - apply IHrun. lia.
  - apply IHrun. lia.
Qed.

(** Every match closes every group of a pattern with no group under an
    alternative. *)
Lemma run_groups ic r s g s' g' :
  run ic r s g s' g' -> groups_always r = true ->
  exists gs, g' = (g ++ gs)%list /\ List.length gs = ngroups r.
Proof.
  induction 1; simpl; intros Hg;
    try (exists []; split; [now rewrite app_nil_r | reflexivity]).
  - apply andb_true_iff in Hg as [Ha Hb].
    destruct (IHrun1 Ha) as (gs1 & -> & L1).
    destruct (IHrun2 Hb) as (gs2 & -> & L2).
    exists (gs1 ++ gs2)%list. split; [now rewrite app_assoc|].
    rewrite length_app. lia.
  - apply andb_true_iff in Hg as [Ha Hb].
    apply Nat.eqb_eq in Ha, Hb. rewrite Ha, Hb.
    exists []. split; [|reflexivity].
    rewrite app_nil_r. eapply run_no_groups; eassumption.
  - apply andb_true_iff in Hg as [Ha Hb].
    apply Nat.eqb_eq in Ha, Hb. rewrite Ha, Hb.
    exists []. split; [|reflexivity].
    rewrite app_nil_r. eapply run_no_groups; eassumption.
  - destruct (IHrun Hg) as (gs & -> & L).
    eexists (gs ++ [_])%list. split; [now rewrite app_assoc|].
    rewrite length_app. simpl. lia.
Qed.

Lemma search_groups ic r s m :
  search ic r s = Some m -> groups_always r = true ->
  List.length m = ngroups r.
Proof.
  intros H Hg. destruct (search_sound _ _ _ _ H) as (s0 & s' & Hr).
  destruct (run_groups _ _ _ _ _ _ Hr Hg) as (gs & -> & L). exact L.
Qed.

Lemma group_ok n (m : list string) :
  (1 <= n <= List.length m)%nat -> exists s, group n m = Ok s.
Proof.
  intros H. unfold group.
  destruct (nth_error m (Nat.pred n)) as [s|] eqn:E; [now exists s|].
  apply nth_error_None in E. lia.
Qed.

(** The text a match consumes. *)
Lemma run_consumes ic r s g s' g' :
  run ic r s g s' g' -> exists t, s = t ++ s'.
Proof.
  induction 1; try (now exists EmptyString);
    try (now exists (String a EmptyString)); try assumption.
  - destruct IHrun as (t & ->). now exists (String a t).
  - destruct IHrun1 as (t1 & ->). destruct IHrun2 as (t2 & ->).
    exists (t1 ++ t2). 
    clear. induction t1; simpl; [reflexivity | now rewrite IHt1].
Qed.

Lemma length_append (a b : string) :
  String.length (a ++ b) = (String.length a + String.length b)%nat.
Proof. induction a; simpl; [reflexivity | now rewrite IHa]. Qed.

Lemma take_append (t s : string) :
  PyStr.take (String.length (t ++ s) - String.length s) (t ++ s) = t.
Proof.
  rewrite length_append.
  replace (String.length t + String.length s - String.length s)%nat
    with (String.length t) by lia.
  unfold PyStr.take. induction t as [|a t IH]; simpl.
  - destruct s; reflexivity.
  - now rewrite IH.
Qed.

End ReFacts.

Module NumFacts.
Import Re ReSem ReFacts PyNum.

Lemma append_assoc (a b c : string) : (a ++ b) ++ c = a ++ (b ++ c).
Proof. induction a; simpl; [reflexivity | now rewrite IHa]. Qed.

Lemma append_empty_r (a : string) : a ++ "" = a.
Proof. induction a; simpl; [reflexivity | now rewrite IHa]. Qed.

Lemma ngroups_Str w : ngroups (Str w) = 0%nat.
Proof. induction w; simpl; [reflexivity | exact IHw]. Qed.

Lemma run_star_chars ic p s g s' g' :
  run ic (Star p) s g s' g' ->
  exists t, PyStr.all_chars p t = true /\ s = t ++ s'.
Proof.
  remember (Star p) as r eqn:Er. induction 1; inversion Er; subst.
  - now exists EmptyString.
  - destruct (IHrun eq_refl) as (t & Ht & ->).
    exists (String a t). simpl.
    match goal with Hp : p a = true |- _ => rewrite Hp end.
    rewrite Ht. now split.
Qed.

Lemma run_plus_chars ic p s g s' g' :
  run ic (Plus p) s g s' g' ->
  exists t, PyStr.all_chars p t = true /\ t <> "" /\ s = t ++ s'.
Proof.
  unfold Plus. intros H.
  inversion H as [ | | | | |r1 r2 s0 g0 s1 g1 s2 g2 Ha Hb| | | ]; subst.
  inversion Ha; subst.
  destruct (run_star_chars _ _ _ _ _ _ Hb) as (t & Ht & ->).
  exists (String a t). simpl.
  match goal with Hp : p a = true |- _ => rewrite Hp end.
  rewrite Ht. repeat split. discriminate.
Qed.

Lemma run_plus_digits ic s g s' g' :
  run ic (Plus PyStr.is_digit) s g s' g' ->
  exists d, all_digits d = true /\ d <> "" /\ s = d ++ s'.
Proof. apply run_plus_chars. Qed.

Lemma split_dot_digits d rest :
  all_digits d = true ->
  split_dot (d ++ rest) = (d ++ fst (split_dot rest), snd (split_dot rest)).
Proof.
  unfold all_digits.
  induction d as [|c d IH]; simpl; intros H.
  - now destruct (split_dot rest).
  - apply andb_true_iff in H as [Hc Hd].
    destruct (Ascii.eqb c ".") eqn:E.
    + apply Ascii.eqb_eq in E. subst c. discriminate.
    + rewrite (IH Hd). reflexivity.
Qed.

Lemma all_digits_append a b :
  all_digits (a ++ b) = all_digits a && all_digits b.
Proof.
  unfold all_digits.
  induction a; simpl; [reflexivity | now rewrite IHa, andb_assoc].
Qed.

(** [float] accepts digits, and digits, a period and digits. *)
Lemma py_float_digits d :
  all_digits d = true -> d <> "" -> exists x, py_float d = Ok x.
Proof.
  intros Hd Hne. unfold py_float.
  pose proof (split_dot_digits d "" Hd) as E.
  simpl in E. rewrite !append_empty_r in E. rewrite E.
  simpl. rewrite append_empty_r, Hd. simpl.
  destruct d; [contradiction|]. simpl. eauto.
Qed.

Lemma py_float_fraction d1 d2 :
  all_digits d1 = true -> d1 <> "" -> all_digits d2 = true ->
  exists x, py_float (d1 ++ String "." d2) = Ok x.
Proof.
  intros H1 Hne H2. unfold py_float.
  rewrite (split_dot_digits d1 _ H1). simpl.
  rewrite append_empty_r, H1, H2. simpl.
  destruct d1; [contradiction|]. simpl. eauto.
Qed.

(** The group of [pat_number] is text that [float] accepts. *)
Lemma pat_number_group ic unit s s' m :
  run ic (DeedValidator.pat_number unit) s [] s' m ->
  exists g x, m = [g] /\ py_float g = Ok x.
Proof.
  unfold DeedValidator.pat_number. simpl. intros H.
  inversion H as [ | | | | |r1 r2 s0 g0 s1 g1 s2 g2 Hg Hrest| | | ]; subst.
  assert (m = g1) as ->.
  { eapply run_no_groups; [exact Hrest|]. simpl. apply ngroups_Str. }
  inversion Hg as [ | | | | | | | |r s0 g0 s2 g2 Hn]; subst.
  assert (g2 = []) as -> by (eapply run_no_groups; [exact Hn | reflexivity]).
  inversion Hn as [ | | | | |r1 r2 s0 g0 s2 g2 s3 g3 Hi Hf| | | ]; subst.
  destruct (run_plus_digits _ _ _ _ _ Hi) as (d1 & Hd1 & Hne1 & ->).
  inversion Hf as [ | | | | | |r1 r2 s0 g0 s3 g3 Hfr|r1 r2 s0 g0 s3 g3 Hno| ];
    subst.
  - inversion Hfr as [ | | | | |r1 r2 s0 g0 s3 g3 s4 g4 Hdot Hd| | | ]; subst.
    inversion Hdot; subst.
    destruct (run_plus_digits _ _ _ _ _ Hd) as (d2 & Hd2 & Hne2 & ->).
    match goal with H : Re.lit_eq _ _ _ = true |- _ => 
      assert (a = "."%char) as -> by
        (unfold Re.lit_eq in H; destruct ic;
         [ destruct a as [[] [] [] [] [] [] [] []]; try discriminate; reflexivity 
         | apply Ascii.eqb_eq in H; now subst ]) end.
    destruct (py_float_fraction d1 d2 Hd1 Hne1 Hd2) as (x & Hx).
    exists (d1 ++ String "." d2), x. split; [|exact Hx].
    simpl. f_equal.
    replace (d1 ++ String "." (d2 ++ s1)) with ((d1 ++ String "." d2) ++ s1)
      by (rewrite append_assoc; reflexivity).
    apply take_append.
  - inversion Hno; subst.
    destruct (py_float_digits d1 Hd1 Hne1) as (x & Hx).
    exists d1, x. split; [|exact Hx]. simpl. f_equal. apply take_append.
Qed.

End NumFacts.

(* ================================================================== *)
(** ** [difflib]: the recursion depth given to [matches] is enough *)

Module DifflibFacts.

Import Difflib DifflibSpec.

Lemma common_prefix_le : forall a b, (common_prefix a b <= List.length a)%nat.
Proof.
  induction a as [|x a IH]; intros [|y b]; simpl; try lia.
  destruct (Ascii.eqb x y); [specialize (IH b)|]; lia.
Qed.

Lemma scan_b_inside n a i : forall b j best,
  (i + List.length a <= n)%nat -> inside n best ->
  inside n (scan_b a b i j best).
Proof.
  induction b as [|y b IH]; intros j best Hi Hb; simpl; [exact Hb|].
  apply IH; [exact Hi|].
  destruct (snd best <? _)%nat; [|exact Hb].
  unfold inside. simpl.
  pose proof (common_prefix_le a (y :: b)). lia.
Qed.

Lemma scan_a_inside n b : forall a i best,
  (i + List.length a <= n)%nat -> inside n best ->
  inside n (scan_a a b i best).
Proof.
  induction a as [|x a IH]; intros i best Hi Hb; simpl; [exact Hb|].
  apply IH; [simpl in Hi; lia|].
  now apply scan_b_inside.
Qed.

Lemma find_longest_match_inside a b :
  inside (List.length a) (find_longest_match a b).
Proof.
  unfold find_longest_match. apply scan_a_inside; [lia|].
  unfold inside. simpl. lia.
Qed.

(** Any depth from [length a] on gives the same count. *)
Lemma matches_depth : forall n m a b,
  (List.length a <= n)%nat -> (List.length a <= m)%nat ->
  matches n a b = matches m a b.
Proof.
  induction n as [|n IH]; intros m a b Hn Hm.
  - destruct a; [|simpl in Hn; lia]. destruct m; reflexivity.
  - destruct m as [|m].
    + destruct a; [|simpl in Hm; lia]. reflexivity.
    + simpl. pose proof (find_longest_match_inside a b) as Hin.
      destruct (find_longest_match a b) as [[i j] k].
      unfold inside in Hin. simpl in Hin.
      destruct k as [|k]; [reflexivity|].
      rewrite (IH m (firstn i a) (firstn j b)),
              (IH m (skipn (i + S k) a) (skipn (j + S k) b));
        try reflexivity;
        rewrite ?length_firstn, ?length_skipn; lia.
Qed.

End DifflibFacts.

(* ================================================================== *)
(** ** Floats: the order facts the matcher needs *)

Module FloatFacts.

Lemma SFltb_trans (a b c : spec_float) :
  SFltb a b = true -> SFltb b c = true -> SFltb a c = true.
Proof.
  unfold SFltb, SFcompare.
  destruct a as [sa|sa| |sa ma ea]; destruct b as [sb|sb| |sb mb eb];
    destruct c as [sc|sc| |sc mc ec];
    try destruct sa; try destruct sb; try destruct sc;
    try discriminate; try reflexivity;
    change (Pos.compare_cont Eq) with Pos.compare;
    destruct (Z.compare_spec ea eb); destruct (Z.compare_spec eb ec);
    destruct (Z.compare_spec ea ec);
    try discriminate; try reflexivity; try lia; subst;
    destruct (Pos.compare_spec ma mb); destruct (Pos.compare_spec mb mc);
    destruct (Pos.compare_spec ma mc); simpl;
    try discriminate; try reflexivity; try lia.
Qed.

Lemma SFltb_irrefl (a : spec_float) : SFltb a a = false.
Proof.
  unfold SFltb, SFcompare.
  destruct a as [sa|sa| |sa ma ea]; try destruct sa; try reflexivity;
    change (Pos.compare_cont Eq) with Pos.compare;
    rewrite Z.compare_refl, Pos.compare_refl; reflexivity.
Qed.

Lemma ltb_trans (x y z : float) :
  (x <? y)%float = true -> (y <? z)%float = true -> (x <? z)%float = true.
Proof. rewrite !ltb_spec. apply SFltb_trans. Qed.

Lemma ltb_irrefl (x : float) : (x <? x)%float = false.
Proof. rewrite ltb_spec. apply SFltb_irrefl. Qed.

Lemma ltb_asym (x y : float) :
  (x <? y)%float = true -> (y <? x)%float = false.
Proof.
  intros H. destruct (y <? x)%float eqn:E; [|reflexivity].
  rewrite <- (ltb_irrefl x). symmetry. eapply ltb_trans; eassumption.
Qed.

End FloatFacts.

(* ================================================================== *)
(** ** The matcher *)

Module MatcherFacts.

Import CountyMatcher CountySpec FloatFacts.

Lemma fires_false r c :
  fires r c = false -> exact_rule r c = false /\ abbrev_rule r c = false.
Proof. unfold fires. intros H. now apply orb_false_iff in H. Qed.

(** When a rule fires on some entry the loop returns at the first such
    entry, with the confidence of the rule. *)
Lemma match_loop_fires r : forall db bm br,
  rule_fires db r ->
  exists c, In c db /\ fires r c = true
    /\ match_loop db r bm br
       = Ok (Some (County.name c),
             if exact_rule r c then 1%float else 0.95%float).
Proof.
  induction db as [|c db IH]; intros bm br (c0 & Hin & Hf).
  - destruct Hin.
  - simpl. destruct (exact_rule r c) eqn:Ee.
    + exists c. repeat split; [now left | unfold fires; now rewrite Ee |].
      now rewrite Ee.
    + destruct (abbrev_rule r c) eqn:Ea.
      * exists c. repeat split; [now left | unfold fires; now rewrite Ee, Ea |].
        now rewrite Ee.
      * assert (Hr : rule_fires db r).
        { destruct Hin as [->|Hin].
          - unfold fires in Hf. rewrite Ee, Ea in Hf. discriminate.
          - now exists c0. }
        destruct (br <? Difflib.ratio r (PyStr.upper (County.name c)))%float.
        -- destruct (IH (Some (County.name c)) (Difflib.ratio r (PyStr.upper (County.name c))) Hr) as (c1 & H1 & H2 & H3).
           exists c1. repeat split; [now right | exact H2 | exact H3].
        -- destruct (IH bm br Hr) as (c1 & H1 & H2 & H3).
           exists c1. repeat split; [now right | exact H2 | exact H3].
Qed.

(** When no rule fires the loop ends with the best ratio seen, at or above
    the ratio it started from. *)
Lemma match_loop_fuzzy r : forall db bm br,
  no_rule db r ->
  exists bm' br',
    match_loop db r bm br
    = (if (br' <? 0.6)%float
       then Raise (CountyLookupError (no_match_msg r))
       else Ok (bm', br'))
    /\ (forall c, In c db -> (br' <? fuzzy r c)%float = false)
    /\ ((bm' = bm /\ br' = br)
        \/ ((br <? br')%float = true
            /\ exists c, In c db /\ bm' = Some (County.name c)
                         /\ br' = fuzzy r c)).
Proof.
  induction db as [|c db IH]; intros bm br Hno.
  - exists bm, br. simpl. repeat split; [intros c [] | now left].
  - assert (Hc : fires r c = false) by (apply Hno; now left).
    apply fires_false in Hc as [Ee Ea].
    assert (Hno' : no_rule db r) by (intros c' Hin; apply Hno; now right).
    simpl. rewrite Ee, Ea. fold (fuzzy r c).
    destruct (br <? fuzzy r c)%float eqn:Elt.
    + destruct (IH (Some (County.name c)) (fuzzy r c) Hno')
        as (bm' & br' & Hres & Hub & Hcase).
      exists bm', br'. split; [exact Hres|]. split.
      * intros c' [<-|Hin]; [|now apply Hub].
        destruct Hcase as [[_ ->]|[Hlt _]];
          [apply ltb_irrefl | now apply ltb_asym].
      * right. destruct Hcase as [[-> ->]|[Hlt (c1 & Hin & -> & ->)]].
        -- split; [exact Elt|]. exists c. repeat split. now left.
        -- split; [eapply ltb_trans; eassumption|].
           exists c1. repeat split. now right.
    + destruct (IH bm br Hno') as (bm' & br' & Hres & Hub & Hcase).
      exists bm', br'. split; [exact Hres|]. split.
      * intros c' [<-|Hin]; [|now apply Hub].
        destruct Hcase as [[_ ->]|[Hlt _]]; [exact Elt|].
        destruct (br' <? fuzzy r c)%float eqn:E; [|reflexivity].
        rewrite <- Elt. symmetry. eapply ltb_trans; eassumption.
      * destruct Hcase as [[-> ->]|[Hlt (c1 & Hin & -> & ->)]];
          [now left | right].
        split; [exact Hlt|]. exists c1. repeat split. now right.
Qed.

Lemma rule_fires_dec db r : {rule_fires db r} + {no_rule db r}.
Proof.
  induction db as [|c db [IH|IH]].
  - right. intros c [].
  - left. destruct IH as (c0 & Hin & Hf). exists c0. split; [now right|exact Hf].
  - destruct (fires r c) eqn:E.
    + left. exists c. split; [now left | exact E].
    + right. intros c' [<-|Hin]; [exact E | now apply IH].
Qed.

(** A successful match names an entry of the table. *)
Lemma match_loop_known db r n conf :
  match_loop db r None 0%float = Ok (n, conf) ->
  exists name, n = Some name /\ known db name.
Proof.
  intros H. destruct (rule_fires_dec db r) as [Hf|Hno].
  - destruct (match_loop_fires r db None 0%float Hf) as (c & Hin & _ & E).
    rewrite E in H. inversion H; subst. exists (County.name c).
    split; [reflexivity | now exists c].
  - destruct (match_loop_fuzzy r db None 0%float Hno)
      as (bm' & br' & E & _ & Hcase).
    rewrite E in H. destruct Hcase as [[-> ->]|[_ (c & Hin & -> & ->)]].
    + discriminate H.
    + destruct (fuzzy r c <? 0.6)%float; [discriminate|].
      inversion H; subst. exists (County.name c).
      split; [reflexivity | now exists c].
Qed.

Lemma get_tax_rate_known : forall db name,
  known db name -> exists x, get_tax_rate db (Some name) = Ok x.
Proof.
  induction db as [|c db IH]; intros name (c0 & Hin & Hn).
  - destruct Hin.
  - simpl. destruct (String.eqb (PyStr.upper (County.name c)) (PyStr.upper name)) eqn:E.
    + eauto.
    + apply IH. destruct Hin as [->|Hin].
      * rewrite Hn, String.eqb_refl in E. discriminate.
      * now exists c0.
Qed.

End MatcherFacts.

(* ================================================================== *)
(** ** The validator *)

Module ValidatorFacts.

Import CountyMatcher CountySpec MatcherFacts DeedValidator.

(** [match_county] returns the name of an entry or raises a
    [CountyLookupError]. *)
Lemma match_county_result db raw :
  (exists msg, match_county db raw = Raise (CountyLookupError msg))
  \/ (exists name conf,
        match_county db raw = Ok (Some name, conf) /\ known db name).
Proof.
  unfold match_county. destruct raw as [[|a s]|]; try (left; eauto; fail).
  set (r := PyStr.upper (PyStr.strip (String a s))).
  destruct (match_loop db r None 0%float) as [[n conf]|e] eqn:E.
  - right. destruct (match_loop_known _ _ _ _ E) as (name & -> & Hk). eauto.
  - left. destruct (rule_fires_dec db r) as [Hf|Hno].
    + destruct (match_loop_fires r db None 0%float Hf) as (c & _ & _ & E').
      rewrite E' in E. discriminate.
    + destruct (match_loop_fuzzy r db None 0%float Hno) as (bm & br & E' & _).
      rewrite E' in E. destruct (br <? 0.6)%float; [|discriminate].
      inversion E. eauto.
Qed.

(** The three ways [_enrich_county] can go; it never raises. *)
Lemma enrich_cases db d :
  (not_str (county_raw d) = true /\ _enrich_county db d = (d, Ok tt))
  \/ (not_str (county_raw d) = false
      /\ exists msg,
        match_county db (county_raw d) = Raise (CountyLookupError msg)
        /\ _enrich_county db d = (add_warning msg d, Ok tt))
  \/ (not_str (county_raw d) = false
      /\ exists name conf rate,
        match_county db (county_raw d) = Ok (Some name, conf)
        /\ get_tax_rate db (Some name) = Ok rate
        /\ _enrich_county db d
           = ((if (conf <? 0.9)%float
               then add_warning (low_confidence_msg conf)
               else fun x => x)
                (set_tax_rate (Some rate)
                   (set_county_normalized (Some name) d)), Ok tt)).
Proof.
  unfold _enrich_county, try_except, bind, get, lift, modify, ret.
  destruct (not_str (county_raw d)) eqn:En; simpl.
  - left. now split.
  - right. destruct (match_county_result db (county_raw d))
      as [(msg & E)|(name & conf & E & Hk)].
    + left. split; [reflexivity|]. exists msg. rewrite E. simpl. now split.
    + right. split; [reflexivity|].
      destruct (get_tax_rate_known db name Hk) as (rate & Er).
      exists name, conf, rate. rewrite E. simpl. rewrite Er.
      repeat split. destruct (conf <? 0.9)%float; reflexivity.
Qed.

Lemma enrich_total db d : exists d', _enrich_county db d = (d', Ok tt).
Proof.
  destruct (enrich_cases db d)
    as [[_ E]|[[_ (m & _ & E)]|[_ (n & c & r & _ & _ & E)]]]; eauto.
Qed.

Lemma add_component_total written unit scale amount :
  exists a, add_component written unit scale amount = Ok a.
Proof.
  unfold add_component. destruct (PyStr.contains unit written); [|eauto].
  destruct (Re.search false (pat_number unit) written) as [m|] eqn:E; [|eauto].
  destruct (ReFacts.search_sound _ _ _ _ E) as (s0 & s' & Hr).
  destruct (NumFacts.pat_number_group _ _ _ _ _ Hr) as (g & x & -> & Hx).
  simpl. rewrite Hx. simpl. eauto.
Qed.

(** [_parse_written_amount] never raises. *)
Lemma parse_written_amount_total written :
  exists r, _parse_written_amount written = Ok r.
Proof.
  unfold _parse_written_amount.
  destruct (add_component_total written "Million" 1000000 0) as (a1 & ->).
  simpl.
  destruct (add_component_total written "Thousand" 1000 a1) as (a2 & ->).
  simpl. eauto.
Qed.

(** The amount check returns, or raises an [AmountMismatchError] and leaves
    the deed as it was. *)
Lemma amount_check_cases d :
  (exists d', _validate_amount_reconciliation d = (d', Ok tt)
              /\ errors d' = errors d)
  \/ (exists msg,
        _validate_amount_reconciliation d
        = (d, Raise (AmountMismatchError msg))).
Proof.
  unfold _validate_amount_reconciliation, bind, get, lift, modify, ret, raise.
  destruct (amount_numeric d) as [n|]; [|left; eauto].
  destruct (amount_written d) as [w|]; [|left; eauto].
  destruct (not_float (Some n) || not_str (Some w)); [left; eauto|].
  destruct (parse_written_amount_total w) as ([x|] & ->).
  - destruct (0.01 <? abs (n - x))%float; [right | left]; eauto.
  - left. eauto.
Qed.

Lemma date_check_cases d :
  _validate_date_logic d = (d, Ok tt)
  \/ exists msg, _validate_date_logic d = (d, Raise (DateLogicError msg)).
Proof.
  unfold _validate_date_logic, bind, get, ret, raise.
  destruct (date_signed d) as [s|]; [|now left].
  destruct (date_recorded d) as [r|]; [|now left].
  destruct (DateTime.gt r s); [right | left]; eauto.
Qed.

(** [validate] never raises. *)
Lemma validate_total db d : exists d', validate db d = Ok d'.
Proof.
  unfold validate, validate_body, try_except, bind.
  destruct (date_check_cases d) as [E|(msg & E)]; rewrite E; simpl; [|eauto].
  destruct (amount_check_cases d) as [(d1 & E1 & _)|(msg & E1)];
    rewrite E1; simpl; [|eauto].
  destruct (enrich_total db d1) as (d2 & E2). rewrite E2. eauto.
Qed.

End ValidatorFacts.

(* ================================================================== *)
(** ** The parser *)

Module ParserFacts.

Import Re ReSem ReFacts DeedParser.

Lemma groups_always_Str w : groups_always (Str w) = true.
Proof.
  induction w; simpl; [reflexivity | exact IHw].
Qed.

Lemma labelled_groups label value :
  groups_always value = true -> ngroups value = 0%nat ->
  groups_always (labelled label value) = true
  /\ ngroups (labelled label value) = 1%nat.
Proof.
  intros Hg Hn. unfold labelled. simpl.
  rewrite groups_always_Str, NumFacts.ngroups_Str, Hg, Hn. now split.
Qed.

Lemma pat_date_groups label :
  groups_always (pat_date label) = true /\ ngroups (pat_date label) = 3%nat.
Proof.
  unfold pat_date. simpl.
  rewrite groups_always_Str, NumFacts.ngroups_Str. now split.
Qed.

(** A match of a pattern whose groups always close has every group. *)
Lemma search_group ic r s m n :
  search ic r s = Some m -> groups_always r = true ->
  (1 <= n <= ngroups r)%nat -> exists g, group n m = Ok g.
Proof.
  intros H Hg Hn. apply group_ok.
  rewrite (search_groups _ _ _ _ H Hg). exact Hn.
Qed.

Lemma extract_field_total text pattern :
  groups_always pattern = true -> ngroups pattern = 1%nat ->
  exists v, _extract_field text pattern = Ok v.
Proof.
  intros Hg Hn. unfold _extract_field.
  destruct (search true pattern text) as [m|] eqn:E; [|eauto].
  destruct (search_group _ _ _ _ 1 E Hg) as (g & ->); [lia|]. simpl. eauto.
Qed.

Lemma make_calendar_date y m d t :
  DateTime.make y m d = Ok t -> DateSpec.calendar_date t.
Proof.
  unfold DateTime.make, DateSpec.calendar_date.
  destruct (_ && _) eqn:E; [|discriminate]. intros H. inversion H; subst.
  simpl. repeat (apply andb_true_iff in E as [E ?]).
  repeat match goal with
         | H : (_ <=? _) = true |- _ => apply Z.leb_le in H
         end.
  lia.
Qed.

Lemma py_int_raises s e : PyNum.py_int s = Raise e -> e = ValueError.
Proof.
  unfold PyNum.py_int. destruct s; [now inversion 1|].
  destruct (PyNum.all_digits _); now inversion 1.
Qed.

Lemma make_raises y m d e : DateTime.make y m d = Raise e -> e = ValueError.
Proof. unfold DateTime.make. destruct (_ && _); now inversion 1. Qed.

(** [_parse_date] never raises, and a date it returns is a calendar date. *)
Lemma parse_date_total text label :
  exists v, _parse_date text label = Ok v
    /\ forall t, v = Some t -> DateSpec.calendar_date t.
Proof.
  assert (N : exists v : option datetime,
             Ok None = Ok v /\ forall t, v = Some t -> DateSpec.calendar_date t)
    by (exists None; split; [reflexivity | discriminate]).
  unfold _parse_date.
  destruct (search true (pat_date label) text) as [m|] eqn:E; [|exact N].
  destruct (pat_date_groups label) as [Hg Hn].
  destruct (search_group _ _ _ _ 1 E Hg) as (g1 & ->); [lia|].
  destruct (search_group _ _ _ _ 2 E Hg) as (g2 & ->); [lia|].
  destruct (search_group _ _ _ _ 3 E Hg) as (g3 & ->); [lia|].
  simpl.
  destruct (PyNum.py_int g1) as [y|e1] eqn:E1; simpl;
    [|apply py_int_raises in E1; subst e1; exact N].
  destruct (PyNum.py_int g2) as [mo|e2] eqn:E2; simpl;
    [|apply py_int_raises in E2; subst e2; exact N].
  destruct (PyNum.py_int g3) as [d|e3] eqn:E3; simpl;
    [|apply py_int_raises in E3; subst e3; exact N].
  destruct (DateTime.make y mo d) as [t|e] eqn:Em; simpl;
    [|apply make_raises in Em; subst e; exact N].
  exists (Some t). split; [reflexivity|].
  intros t' H. inversion H; subst. eapply make_calendar_date; eassumption.
Qed.

Lemma py_float_raises s e : PyNum.py_float s = Raise e -> e = ValueError.
Proof.
  unfold PyNum.py_float. destruct (PyNum.split_dot s) as [i f].
  destruct (_ && _); intros H; inversion H; reflexivity.
Qed.

Lemma pat_amount_groups :
  groups_always pat_amount = true /\ ngroups pat_amount = 1%nat.
Proof. now split. Qed.

Lemma pat_written_groups :
  groups_always pat_written = true /\ ngroups pat_written = 1%nat.
Proof. now split. Qed.

(** What follows a part of a pattern that has no group. *)
Lemma run_skip ic r1 r2 s g s2 g2 :
  ngroups r1 = 0%nat -> run ic (Seq r1 r2) s g s2 g2 ->
  exists s1, run ic r2 s1 g s2 g2.
Proof.
  intros Hn H.
  inversion H as [ | | | | |? ? ? ? s1 g1 ? ? Ha Hb| | | ]; subst.
  rewrite (run_no_groups _ _ _ _ _ _ Ha Hn) in Hb. now exists s1.
Qed.

(** The text [float] is given by [parse] is made of digits and periods. *)
Lemma amount_text_alphabet text m g :
  search false pat_amount text = Some m -> group 1 m = Ok g ->
  PyStr.all_chars PyNum.digit_or_dot (PyStr.remove_char "," g) = true.
Proof.
  intros Hs Hg. destruct (search_sound _ _ _ _ Hs) as (s0 & s' & Hr).
  unfold pat_amount in Hr. cbn [cat] in Hr.
  apply run_skip in Hr as (s1 & Hr); [|apply NumFacts.ngroups_Str].
  apply run_skip in Hr as (s2 & Hr); [|reflexivity].
  apply run_skip in Hr as (s3 & Hr); [|reflexivity].
  apply run_skip in Hr as (s4 & Hr); [|reflexivity].
  apply run_skip in Hr as (s5 & Hr); [|reflexivity].
  inversion Hr as [ | | | | | | | |r s6 g6 s7 g7 Hp]; subst.
  assert (g7 = []) as -> by (eapply run_no_groups; [exact Hp | reflexivity]).
  destruct (NumFacts.run_plus_chars _ _ _ _ _ _ Hp) as (t & Ht & _ & ->).
  rewrite take_append in Hg. inversion Hg; subst.
  now apply PyStrFacts.remove_comma_chars.
Qed.

Lemma parse_amount_numeric_total text :
  exists v, parse_amount_numeric text = Ok v.
Proof.
  unfold parse_amount_numeric.
  destruct (search false pat_amount text) as [m|] eqn:E; [|eauto].
  destruct pat_amount_groups as [Hg Hn].
  destruct (search_group _ _ _ _ 1 E Hg) as (g & ->); [rewrite Hn; lia|].
  simpl. destruct (PyNum.py_float _) as [x|e] eqn:Ef; simpl; [eauto|].
  apply py_float_raises in Ef. subst e. simpl. eauto.
Qed.

Lemma parse_amount_written_total text :
  exists v, parse_amount_written text = Ok v.
Proof.
  unfold parse_amount_written.
  destruct (search false pat_written text) as [m|] eqn:E; [|eauto].
  destruct pat_written_groups as [Hg Hn].
  destruct (search_group _ _ _ _ 1 E Hg) as (g & ->); [rewrite Hn; lia|].
  simpl. eauto.
Qed.

(** [parse] returns a deed whose fields are the separate extractions. *)
Lemma parse_fields raw_text :
  exists deed,
    parse raw_text = Ok deed
    /\ (_extract_field raw_text pat_doc_id = Ok (doc_id deed)
        /\ _extract_field raw_text pat_county = Ok (county_raw deed)
        /\ _extract_field raw_text pat_state = Ok (state deed)
        /\ _parse_date raw_text "Date Signed" = Ok (date_signed deed)
        /\ _parse_date raw_text "Date Recorded" = Ok (date_recorded deed)
        /\ _extract_field raw_text pat_grantor = Ok (grantor deed)
        /\ _extract_field raw_text pat_grantee = Ok (grantee deed)
        /\ _extract_field raw_text pat_apn = Ok (apn deed)
        /\ _extract_field raw_text pat_status = Ok (status deed)
        /\ parse_amount_numeric raw_text = Ok (amount_numeric deed)
        /\ parse_amount_written raw_text = Ok (amount_written deed)).
Proof.
  assert (L : forall label value,
             groups_always value = true -> ngroups value = 0%nat ->
             exists v, _extract_field raw_text (labelled label value) = Ok v).
  { intros label value Hg Hn.
    destruct (labelled_groups label value Hg Hn) as [Hg' Hn'].
    now apply extract_field_total. }
  destruct (L "Doc" (Plus non_space) eq_refl eq_refl) as (v1 & E1).
  destruct (L "County"
              (Plus (fun a => negb (Ascii.eqb a "|" || Ascii.eqb a newline)))
              eq_refl eq_refl) as (v2 & E2).
  destruct (L "State" (Rep 2 PyStr.is_word) eq_refl eq_refl) as (v3 & E3).
  destruct (parse_date_total raw_text "Date Signed") as (v4 & E4 & _).
  destruct (parse_date_total raw_text "Date Recorded") as (v5 & E5 & _).
  destruct (L "Grantor" (Plus (none_of newline)) eq_refl eq_refl)
    as (v6 & E6).
  destruct (L "Grantee" (Plus (none_of newline)) eq_refl eq_refl)
    as (v7 & E7).
  destruct (L "APN" (Plus non_space) eq_refl eq_refl) as (v8 & E8).
  destruct (L "Status" (Plus PyStr.is_word) eq_refl eq_refl) as (v9 & E9).
  destruct (parse_amount_numeric_total raw_text) as (v10 & E10).
  destruct (parse_amount_written_total raw_text) as (v11 & E11).
  fold pat_doc_id in E1. fold pat_county in E2. fold pat_state in E3.
  fold pat_grantor in E6. fold pat_grantee in E7. fold pat_apn in E8.
  fold pat_status in E9.
  exists (mk_DeedData v1 v2 None v3 v4 v5 v6 v7 v10 v11 v8 v9 None [] []).
  split.
  - unfold parse.
    rewrite E1, E2, E3, E4, E5, E6, E7, E8, E9, E10, E11. reflexivity.
  - simpl. repeat split; assumption.
Qed.

(** [process_deed] never raises: nothing escapes to the caller. *)
Lemma process_deed_total db raw_ocr_text :
  exists deed, BadDeedValidator.process_deed db raw_ocr_text = Ok deed.
Proof.
  unfold BadDeedValidator.process_deed.
  destruct (parse_fields raw_ocr_text) as (d & -> & _). simpl.
  apply ValidatorFacts.validate_total.
Qed.

End ParserFacts.

(* ================================================================== *)
(** ** Dates *)

Module DateFacts.

Import DateSpec.

(** On datetimes whose fields are in range, [>] is the order of time. *)
Lemma gt_stamp (a b : datetime) :
  in_range a -> in_range b ->
  (DateTime.gt a b = true <-> stamp b < stamp a).
Proof.
  unfold in_range, stamp, DateTime.gt, DateTime.fields.
  destruct a as [y1 m1 d1 h1 mi1 s1 u1], b as [y2 m2 d2 h2 mi2 s2 u2].
  simpl. intros Ha Hb.
  rewrite !andb_false_r, !orb_false_r.
  repeat rewrite ?orb_true_iff, ?andb_true_iff, ?Z.ltb_lt, ?Z.eqb_eq.
  lia.
Qed.

End DateFacts.

(* ================================================================== *)
(** ** The date-order check *)

Module DateOrder.

Import DeedValidator BadDeedValidator ValidatorFacts.

Lemma validate_date_error db deed msg :
  _validate_date_logic deed = (deed, Raise (DateLogicError msg)) ->
  validate db deed = Ok (add_error msg deed).
Proof.
  intros H. unfold validate, validate_body, try_except, bind.
  rewrite H. reflexivity.
Qed.

(** C1.  With both dates present, the date-order check raises a
    [DateLogicError] exactly when the recorded date is strictly later than
    the signed date; validation then appends the message to the errors and
    the report has status REJECTED.  When recorded is on or before signed,
    or when either date is absent, the check returns without an error.
    [>] on two datetimes in range is the order of their time stamps. *)
Theorem date_order_check (db : list County.info) (deed : DeedData) :
  (forall signed recorded,
      date_signed deed = Some signed -> date_recorded deed = Some recorded ->
      ((exists msg,
           _validate_date_logic deed = (deed, Raise (DateLogicError msg)))
       <-> DateTime.gt recorded signed = true)
      /\ (DateTime.gt recorded signed = true ->
          _validate_date_logic deed
          = (deed, Raise (DateLogicError (date_logic_msg recorded signed)))
          /\ validate db deed
             = Ok (add_error (date_logic_msg recorded signed) deed)
          /\ dict_get
               (report (add_error (date_logic_msg recorded signed) deed))
               "status"
             = Some (PyStr "REJECTED")
          /\ forall raw_ocr_text,
              DeedParser.parse raw_ocr_text = Ok deed ->
              process_and_report db raw_ocr_text
              = Ok (report
                      (add_error (date_logic_msg recorded signed) deed)))
      /\ (DateTime.gt recorded signed = false ->
          _validate_date_logic deed = (deed, Ok tt))
      /\ (DateSpec.in_range signed -> DateSpec.in_range recorded ->
          (DateTime.gt recorded signed = true
           <-> DateSpec.stamp signed < DateSpec.stamp recorded)))
  /\ (date_signed deed = None \/ date_recorded deed = None ->
      _validate_date_logic deed = (deed, Ok tt)).
Proof.
  split.
  - intros signed recorded Hs Hr.
    assert (E : _validate_date_logic deed
                = if DateTime.gt recorded signed
                  then (deed, Raise (DateLogicError
                                       (date_logic_msg recorded signed)))
                  else (deed, Ok tt)).
    { unfold _validate_date_logic, bind, get, raise, ret.
      rewrite Hs, Hr. now destruct (DateTime.gt recorded signed). }
    assert (S : DateSpec.in_range signed -> DateSpec.in_range recorded ->
                (DateTime.gt recorded signed = true
                 <-> DateSpec.stamp signed < DateSpec.stamp recorded))
      by (intros; now apply DateFacts.gt_stamp).
    destruct (DateTime.gt recorded signed) eqn:G; rewrite E.
    + split; [split; eauto|]. split; [|split; [discriminate | exact S]].
      intros _. split; [reflexivity|].
      pose proof (validate_date_error db deed _ E) as V.
      split; [exact V|]. split.
      * unfold report, report_status. simpl.
        destruct (errors deed); reflexivity.
      * intros raw Hp. unfold process_and_report, process_deed.
        rewrite Hp. simpl. rewrite V. reflexivity.
    + split; [split; [intros (msg & H) |]; discriminate|].
      split; [discriminate|]. split; [reflexivity | exact S].
  - intros H. unfold _validate_date_logic, bind, get, raise, ret.
    destruct H as [-> | ->]; [reflexivity|].
    now destruct (date_signed deed).
Qed.

Lemma date_order_check_witness :
  DateTime.gt Samples.jan_10 Samples.jan_05 = true
  /\ validate Samples.db_santa_clara Samples.deed_dates
     = Ok (add_error
             "Date logic violation: Recorded 2020-01-10 is before Signed 2020-01-05"
             Samples.deed_dates)
  /\ (exists rep,
      process_and_report Samples.db_santa_clara Samples.text_dates = Ok rep
      /\ dict_get rep "status" = Some (PyStr "REJECTED"))
  /\ DateSpec.stamp Samples.jan_05 < DateSpec.stamp Samples.jan_10
  /\ _validate_date_logic (Samples.deed_county "Santa Clara")
     = (Samples.deed_county "Santa Clara", Ok tt).
Proof.
  split; [reflexivity|].
  destruct (date_order_check Samples.db_santa_clara Samples.deed_dates)
    as [H _].
  destruct (H Samples.jan_05 Samples.jan_10 eq_refl eq_refl)
    as (_ & H1 & _ & H5).
  destruct (H1 eq_refl) as (_ & H2 & H3 & H4). split; [exact H2|].
  split; [eexists; split; [apply H4; reflexivity | exact H3]|].
  split.
  - apply H5; [| | reflexivity];
      unfold DateSpec.in_range, Samples.jan_05, Samples.jan_10; simpl; lia.
  - destruct (date_order_check Samples.db_santa_clara
                (Samples.deed_county "Santa Clara")) as [_ H6].
    apply H6. now left.
Defined.

End DateOrder.

(* ================================================================== *)
(** ** The order of the checks in [validate] *)

Module CheckOrder.

Import CountyMatcher DeedValidator ValidatorFacts.

Lemma enrich_keeps_errors db d d' :
  _enrich_county db d = (d', Ok tt) -> errors d' = errors d.
Proof.
  intros H.
  destruct (enrich_cases db d)
    as [[_ E]|[[_ (m & _ & E)]|[_ (n & c & r & _ & _ & E)]]];
    rewrite E in H; inversion H; subst; try reflexivity.
  destruct (c <? 0.9)%float; reflexivity.
Qed.

(** The deed of the sample is rejected for its dates and its county is left
    unresolved, although enrichment alone would resolve it. *)
Lemma enrichment_skipped_after_failure : ~ SpecText.enrichment_runs_regardless.
Proof.
  intros H.
  specialize (H Samples.db_santa_clara Samples.deed_recorded_later
                (DateLogicError
                   (date_logic_msg Samples.jan_10 Samples.jan_05))
                eq_refl).
  vm_compute in H. discriminate H.
Qed.

(** C2, as the code has it.  The date-order check, the amount check and
    the enrichment run in this order inside one [try]: the first check that
    raises has its message appended to the errors, once, and nothing after
    it runs, neither the other check nor the enrichment.  When neither
    check raises the enrichment runs; it never raises, it leaves the errors
    as they are, and a failed lookup is appended to the warnings. *)
Theorem validate_short_circuit (db : list County.info) (deed : DeedData) :
  (forall e,
      _validate_date_logic deed = (deed, Raise e) ->
      validate db deed = Ok (add_error (str_exn e) deed))
  /\ (forall e,
      _validate_date_logic deed = (deed, Ok tt) ->
      _validate_amount_reconciliation deed = (deed, Raise e) ->
      validate db deed = Ok (add_error (str_exn e) deed))
  /\ (forall deed1,
      _validate_date_logic deed = (deed, Ok tt) ->
      _validate_amount_reconciliation deed = (deed1, Ok tt) ->
      exists deed2,
        _enrich_county db deed1 = (deed2, Ok tt)
        /\ validate db deed = Ok deed2
        /\ errors deed2 = errors deed
        /\ forall msg,
            not_str (county_raw deed1) = false ->
            match_county db (county_raw deed1)
            = Raise (CountyLookupError msg) ->
            deed2 = add_warning msg deed1).
Proof.
  repeat split.
  - intros e H. destruct (date_check_cases deed) as [E|(msg & E)];
      rewrite E in H; inversion H; subst.
    unfold validate, validate_body, try_except, bind. rewrite E. reflexivity.
  - intros e Hd H.
    destruct (amount_check_cases deed) as [(d1 & E & _)|(msg & E)];
      rewrite E in H; inversion H; subst.
    unfold validate, validate_body, try_except, bind. rewrite Hd. simpl.
    rewrite E. reflexivity.
  - intros deed1 Hd Ha.
    destruct (enrich_total db deed1) as (deed2 & E2).
    exists deed2. split; [exact E2|]. split; [|split].
    + unfold validate, validate_body, try_except, bind. rewrite Hd. simpl.
      rewrite Ha. simpl. rewrite E2. reflexivity.
    + rewrite (enrich_keeps_errors _ _ _ E2).
      destruct (amount_check_cases deed) as [(d1 & E & He)|(msg & E)];
        rewrite E in Ha; inversion Ha; subst. exact He.
    + intros msg Hn Hm.
      destruct (enrich_cases db deed1)
        as [[Hn' _]|[[_ (m & Hm' & E)]|[_ (n & c & r & Hm' & _ & _)]]].
      * rewrite Hn in Hn'. discriminate.
      * rewrite Hm in Hm'. inversion Hm'; subst. rewrite E in E2.
        now inversion E2.
      * rewrite Hm in Hm'. discriminate.
Qed.

Lemma validate_short_circuit_witness :
  validate Samples.db_santa_clara Samples.deed_recorded_later
  = Ok (add_error
          "Date logic violation: Recorded 2020-01-10 is before Signed 2020-01-05"
          Samples.deed_recorded_later)
  /\ validate Samples.db_santa_clara
       (Samples.deed_amounts 1000000 "2 Million")
     = Ok (add_error
             "Amount mismatch: $1,000,000.00 vs 2 Million (diff: $1,000,000.00)"
             (Samples.deed_amounts 1000000 "2 Million"))
  /\ exists deed2,
      validate Samples.db_santa_clara (Samples.deed_county "Zzyzx County")
      = Ok deed2
      /\ errors deed2 = []
      /\ warnings deed2 = ["No match for ZZYZX COUNTY"].
Proof.
  destruct (validate_short_circuit Samples.db_santa_clara
              Samples.deed_recorded_later) as (H1 & _).
  split; [exact (H1 _ eq_refl)|].
  destruct (validate_short_circuit Samples.db_santa_clara
              (Samples.deed_amounts 1000000 "2 Million")) as (_ & H2 & _).
  split; [exact (H2 _ eq_refl eq_refl)|].
  destruct (validate_short_circuit Samples.db_santa_clara
              (Samples.deed_county "Zzyzx County")) as (_ & _ & H3).
  destruct (H3 _ eq_refl eq_refl) as (deed2 & _ & Hv & He & Hw).
  exists deed2. split; [exact Hv|]. split; [exact He|].
  rewrite (Hw "No match for ZZYZX COUNTY" eq_refl eq_refl). reflexivity.
Defined.

End CheckOrder.

(* ================================================================== *)
(** ** Amount reconciliation *)

Module Amounts.

Import DeedValidator.

Lemma parse_written_empty : _parse_written_amount "" = Ok None.
Proof. reflexivity. Qed.

(** A numeric amount of zero against [2 Million]: the difference is two
    million and the check returns without an error. *)
Lemma zero_amount_not_reconciled : ~ SpecText.amount_mismatch_iff.
Proof.
  intros H.
  destruct (H (Samples.deed_amounts 0 "2 Million") 0%float "2 Million"
              2000000%float eq_refl eq_refl eq_refl) as [_ H2].
  destruct (H2 eq_refl) as (msg & Hm). vm_compute in Hm. discriminate Hm.
Qed.

(** C3, as the code has it.  With the numeric amount [N] present and not
    zero, and the written amount parsing to [W], the amount check raises an
    [AmountMismatchError] exactly when the difference [abs (N - W)],
    computed in binary64, is greater than [0.01]; the message carries both
    amounts and that difference.  Otherwise the check returns and changes
    nothing. *)
Theorem amount_reconciliation_check (deed : DeedData) (N : float)
  (w : string) (W : float) :
  amount_numeric deed = Some N -> amount_written deed = Some w ->
  PyNum.truthy N = true ->
  _parse_written_amount w = Ok (Some W) ->
  let delta := abs (N - W)%float in
  ((exists msg, _validate_amount_reconciliation deed
                = (deed, Raise (AmountMismatchError msg)))
   <-> (0.01 <? delta)%float = true)
  /\ ((0.01 <? delta)%float = true ->
      _validate_amount_reconciliation deed
      = (deed, Raise (AmountMismatchError (amount_mismatch_msg N w delta))))
  /\ ((0.01 <? delta)%float = false ->
      _validate_amount_reconciliation deed = (deed, Ok tt)).
Proof.
  intros HN Hw Ht HW delta.
  assert (E : _validate_amount_reconciliation deed
              = if (0.01 <? delta)%float
                then (deed, Raise (AmountMismatchError
                                     (amount_mismatch_msg N w delta)))
                else (deed, Ok tt)).
  { unfold _validate_amount_reconciliation, bind, get, lift, raise, ret.
    rewrite HN, Hw. unfold not_float. rewrite Ht. simpl.
    destruct w as [|a w]; [rewrite parse_written_empty in HW; discriminate|].
    simpl. rewrite HW. fold delta. now destruct (0.01 <? delta)%float. }
  rewrite E. destruct (0.01 <? delta)%float; repeat split; eauto;
    try discriminate.
  intros (msg & H). discriminate.
Qed.

Lemma amount_reconciliation_check_witness :
  _validate_amount_reconciliation (Samples.deed_amounts 1000000 "2 Million")
  = (Samples.deed_amounts 1000000 "2 Million",
     Raise (AmountMismatchError
              "Amount mismatch: $1,000,000.00 vs 2 Million (diff: $1,000,000.00)"))
  /\ _validate_amount_reconciliation
       (Samples.deed_amounts 2000000.005 "2 Million")
     = (Samples.deed_amounts 2000000.005 "2 Million", Ok tt).
Proof.
  split.
  - destruct (amount_reconciliation_check
                (Samples.deed_amounts 1000000 "2 Million") 1000000%float
                "2 Million" 2000000%float eq_refl eq_refl eq_refl eq_refl)
      as (_ & H & _).
    exact (H eq_refl).
  - destruct (amount_reconciliation_check
                (Samples.deed_amounts 2000000.005 "2 Million")
                2000000.005%float "2 Million" 2000000%float
                eq_refl eq_refl eq_refl eq_refl)
      as (_ & _ & H).
    exact (H eq_refl).
Defined.

(** The deed extracted from the sample text gets a warning, not an error. *)
Lemma two_million_no_mismatch : ~ SpecText.two_million_mismatch.
Proof.
  intros H.
  destruct (H (Samples.deed_amounts 1000000 "Two Million") eq_refl eq_refl)
    as (msg & Hm).
  vm_compute in Hm. discriminate Hm.
Qed.

(** C4, as the code has it.  The text [Amount: $1,000,000.00 (Two Million)]
    is extracted to the numeric amount 1000000.0 and the written amount
    [Two Million].  The written amount has no digits before [Million], so it
    does not parse: the amount check appends the warning
    [Could not parse: Two Million] and raises nothing.  With the written
    amount [2 Million] the check raises an [AmountMismatchError] whose
    difference is 1,000,000.00. *)
Theorem two_million_could_not_parse :
  DeedParser.parse Samples.text_two_million
  = Ok (Samples.deed_amounts 1000000 "Two Million")
  /\ (forall deed,
      amount_numeric deed = Some 1000000%float ->
      amount_written deed = Some "Two Million" ->
      _validate_amount_reconciliation deed
      = (add_warning "Could not parse: Two Million" deed, Ok tt))
  /\ (forall deed,
      amount_numeric deed = Some 1000000%float ->
      amount_written deed = Some "2 Million" ->
      _validate_amount_reconciliation deed
      = (deed,
         Raise (AmountMismatchError
                  "Amount mismatch: $1,000,000.00 vs 2 Million (diff: $1,000,000.00)"))).
Proof.
  split; [vm_compute; reflexivity|]. split; intros deed HN Hw.
  - unfold _validate_amount_reconciliation, bind, get, lift, modify.
    rewrite HN, Hw. reflexivity.
  - unfold _validate_amount_reconciliation, bind, get, lift, raise.
    rewrite HN, Hw. reflexivity.
Qed.

Lemma two_million_could_not_parse_witness :
  _validate_amount_reconciliation
    (Samples.deed_amounts 1000000 "Two Million")
  = (add_warning "Could not parse: Two Million"
       (Samples.deed_amounts 1000000 "Two Million"), Ok tt)
  /\ _validate_amount_reconciliation
       (Samples.deed_amounts 1000000 "2 Million")
     = (Samples.deed_amounts 1000000 "2 Million",
        Raise (AmountMismatchError
                 "Amount mismatch: $1,000,000.00 vs 2 Million (diff: $1,000,000.00)")).
Proof.
  destruct two_million_could_not_parse as (_ & H1 & H2).
  split.
  - exact (H1 (Samples.deed_amounts 1000000 "Two Million") eq_refl eq_refl).
  - exact (H2 (Samples.deed_amounts 1000000 "2 Million") eq_refl eq_refl).
Defined.

(** C10.  When the numeric amount is present and equal to zero, or the
    written amount is present and empty, the amount check returns at once,
    as it does when the field is absent: it raises nothing and leaves the
    deed, warnings included, as it was, whatever the other amount is. *)
Theorem zero_or_empty_amount_skipped (deed : DeedData) :
  ((exists x, amount_numeric deed = Some x /\ (x =? 0)%float = true)
   \/ amount_written deed = Some ""
   \/ amount_numeric deed = None
   \/ amount_written deed = None) ->
  _validate_amount_reconciliation deed = (deed, Ok tt).
Proof.
  unfold _validate_amount_reconciliation, bind, get, lift, ret.
  intros [(x & Hn & Hx) | [Hw | [Hn | Hw]]];
    [rewrite Hn | rewrite Hw | rewrite Hn | rewrite Hw].
  - destruct (amount_written deed); [|reflexivity].
    unfold not_float, PyNum.truthy. rewrite Hx. reflexivity.
  - destruct (amount_numeric deed); [|reflexivity].
    unfold not_str. simpl. rewrite orb_true_r. reflexivity.
  - reflexivity.
  - now destruct (amount_numeric deed).
Qed.

Lemma zero_or_empty_amount_skipped_witness :
  _validate_amount_reconciliation (Samples.deed_amounts 0 "2 Million")
  = (Samples.deed_amounts 0 "2 Million", Ok tt)
  /\ _validate_amount_reconciliation (Samples.deed_amounts (-0) "2 Million")
     = (Samples.deed_amounts (-0) "2 Million", Ok tt)
  /\ _validate_amount_reconciliation (Samples.deed_amounts 1000000 "")
     = (Samples.deed_amounts 1000000 "", Ok tt)
  /\ _validate_amount_reconciliation (Samples.deed_county "Santa Clara")
     = (Samples.deed_county "Santa Clara", Ok tt).
Proof.
  split; [|split; [|split]]; apply zero_or_empty_amount_skipped.
  - left. exists 0%float. split; reflexivity.
  - left. exists (-0)%float. split; reflexivity.
  - right. left. reflexivity.
  - right. right. left. reflexivity.
Defined.

End Amounts.

(* ================================================================== *)
(** ** Jurisdiction matching *)

Module Matching.

Import CountyMatcher CountySpec MatcherFacts DeedValidator.

(** Entries on which no rule fires only move the best ratio so far. *)
Lemma match_loop_skip r rest : forall pre bm br,
  (forall c, In c pre -> fires r c = false) ->
  exists bm' br',
    match_loop (pre ++ rest) r bm br = match_loop rest r bm' br'.
Proof.
  induction pre as [|c pre IH]; intros bm br Hno.
  - now exists bm, br.
  - assert (Hc : fires r c = false) by (apply Hno; now left).
    apply fires_false in Hc as [Ee Ea].
    assert (Hno' : forall c', In c' pre -> fires r c' = false)
      by (intros c' Hin; apply Hno; now right).
    simpl. rewrite Ee, Ea.
    destruct (br <? Difflib.ratio r (PyStr.upper (County.name c)))%float;
      apply IH; exact Hno'.
Qed.

(** C5, what the code computes.  For the raw name [S. Clara] and the entry
    [Santa Clara] the abbreviation rule compares [SCLARA] with the initials
    [SC] and does not fire.  The name is matched by similarity, with ratio
    14/19, which is below 0.9: enrichment resolves the name and appends a
    low-confidence warning. *)
Theorem s_clara_matched_by_ratio (rate : float) (deed : DeedData) :
  county_raw deed = Some "S. Clara" ->
  let db := [County.mk_info "Santa Clara" rate] in
  squeeze "S. CLARA" = "SCLARA"
  /\ abbrev "Santa Clara" = "SC"
  /\ abbrev_rule "S. CLARA" (County.mk_info "Santa Clara" rate) = false
  /\ match_county db (Some "S. Clara")
     = Ok (Some "Santa Clara", (2 * 7 / 19)%float)
  /\ (2 * 7 / 19 <? 0.9)%float = true
  /\ _enrich_county db deed
     = (add_warning "Low confidence county match: 74%"
          (set_tax_rate (Some rate)
             (set_county_normalized (Some "Santa Clara") deed)), Ok tt).
Proof.
  intros Hraw db. repeat split.
  unfold _enrich_county, try_except, bind, get, lift, modify, ret.
  rewrite Hraw. reflexivity.
Qed.

Lemma s_clara_matched_by_ratio_witness :
  warnings (fst (_enrich_county Samples.db_santa_clara
                   (Samples.deed_county "S. Clara")))
  = ["Low confidence county match: 74%"].
Proof.
  destruct (s_clara_matched_by_ratio 0.0125 (Samples.deed_county "S. Clara")
              eq_refl) as (_ & _ & _ & _ & _ & H).
  unfold Samples.db_santa_clara, Samples.santa_clara. rewrite H. reflexivity.
Defined.

(** For the raw name [LA] and the table [Los Angeles], [LA], the initials of
    the first entry match before the second entry is looked at. *)
Lemma abbreviation_before_exact : ~ SpecText.exact_rule_precedence.
Proof.
  intros H.
  specialize (H Samples.db_los_angeles "LA" (County.mk_info "LA" 0.01)).
  assert (E : match_county Samples.db_los_angeles (Some "LA")
              = Ok (Some "Los Angeles", 0.95%float)) by reflexivity.
  rewrite E in H.
  assert (H' : Ok (Some "Los Angeles", 0.95%float)
               = Ok (Some (County.name (County.mk_info "LA" 0.01)), 1%float)).
  { apply H; [discriminate | right; now left | reflexivity]. }
  discriminate H'.
Qed.

(** C6, as the code has it.  The table is read in order and, on each entry,
    the exact rule is tried before the abbreviation rule.  If the raw name,
    stripped of surrounding white space, equals the name of an entry up to
    case, and neither rule fires on an earlier entry, the match is that
    entry with confidence 1.0, whatever the similarity ratios are. *)
Theorem exact_match_first (db pre post : list County.info)
  (c : County.info) (raw : string) :
  raw <> "" ->
  db = (pre ++ c :: post)%list ->
  PyStr.upper (PyStr.strip raw) = PyStr.upper (County.name c) ->
  (forall c', In c' pre -> fires (PyStr.upper (PyStr.strip raw)) c' = false) ->
  match_county db (Some raw) = Ok (Some (County.name c), 1%float).
Proof.
  intros Hne -> Heq Hpre. unfold match_county.
  destruct raw as [|a raw]; [contradiction|].
  destruct (match_loop_skip _ (c :: post) pre None 0%float Hpre)
    as (bm & br & ->).
  simpl. unfold exact_rule. rewrite Heq, String.eqb_refl. reflexivity.
Qed.

Lemma exact_match_first_witness :
  match_county Samples.db_los_angeles (Some " los angeles ")
  = Ok (Some "Los Angeles", 1%float).
Proof.
  apply (exact_match_first Samples.db_los_angeles []
           [County.mk_info "LA" 0.01] (County.mk_info "Los Angeles" 0.0125)).
  - discriminate.
  - reflexivity.
  - reflexivity.
  - intros c' [].
Defined.

(** C7.  [match_county] raises a [CountyLookupError] in two situations and
    in no other.  (1) The raw name is unset or empty: it raises at once,
    whatever the table is.  (2) Neither the exact nor the abbreviation rule
    fires on any entry and the best similarity ratio over the table is below
    0.6.  Either a rule fires on some entry or none does: when one fires it
    returns the entry the rule fired on; when none fires and the best ratio
    is not below 0.6 it returns the entry with the best ratio, and that
    ratio as the confidence. *)
Theorem match_county_failures (db : list County.info) (raw : option string) :
  (raw = None \/ raw = Some "" ->
   forall db',
     match_county db' raw = Raise (CountyLookupError "County name is empty"))
  /\ (forall s,
      raw = Some s -> s <> "" ->
      let r := PyStr.upper (PyStr.strip s) in
      (rule_fires db r \/ no_rule db r)
      /\ (rule_fires db r ->
       exists c, In c db /\ fires r c = true
         /\ match_county db raw
            = Ok (Some (County.name c),
                  if exact_rule r c then 1%float else 0.95%float))
      /\ (no_rule db r ->
          exists bm best,
            is_best db r bm best
            /\ match_county db raw
               = if (best <? 0.6)%float
                 then Raise (CountyLookupError (no_match_msg r))
                 else Ok (bm, best))).
Proof.
  split.
  - intros [-> | ->] db'; reflexivity.
  - intros s -> Hne r. unfold match_county.
    destruct s as [|a s]; [contradiction|]. fold r. split; [|split].
    + destruct (rule_fires_dec db r); [now left | now right].
    + intros Hf. exact (match_loop_fires r db None 0%float Hf).
    + intros Hno.
      destruct (match_loop_fuzzy r db None 0%float Hno)
        as (bm & best & E & Hub & Hcase).
      exists bm, best. split; [|exact E]. split; [exact Hub|].
      destruct Hcase as [[-> ->]|[_ Hc]]; [left; now split | right; exact Hc].
Qed.

Lemma match_county_failures_witness :
  match_county Samples.db_santa_clara None
  = Raise (CountyLookupError "County name is empty")
  /\ (exists c, In c Samples.db_santa_clara
        /\ match_county Samples.db_santa_clara (Some "santa clara")
           = Ok (Some (County.name c), 1%float))
  /\ exists bm best,
      is_best Samples.db_santa_clara "ZZYZX COUNTY" bm best
      /\ match_county Samples.db_santa_clara (Some "Zzyzx County")
         = if (best <? 0.6)%float
           then Raise (CountyLookupError "No match for ZZYZX COUNTY")
           else Ok (bm, best).
Proof.
  split; [|split].
  - destruct (match_county_failures Samples.db_santa_clara None) as [H _].
    apply H. now left.
  - destruct (match_county_failures Samples.db_santa_clara
                (Some "santa clara")) as [_ H].
    destruct (H "santa clara" eq_refl) as (_ & H1 & _); [discriminate|].
    destruct H1 as (c & Hin & Hf & E).
    + exists Samples.santa_clara. split; [now left | reflexivity].
    + exists c. split; [exact Hin|]. rewrite E.
      destruct Hin as [<-|[]]. reflexivity.
  - destruct (match_county_failures Samples.db_santa_clara
                (Some "Zzyzx County")) as [_ H].
    destruct (H "Zzyzx County" eq_refl) as (_ & _ & H2); [discriminate|].
    apply H2. intros c [<-|[]]. reflexivity.
Defined.

End Matching.

(* ================================================================== *)
(** ** Serialization *)

Module Serialization.

(** A deed signed on 2020-01-05 serializes the date with a time of day. *)
Lemma date_serialized_with_time : ~ SpecText.dates_without_time.
Proof.
  intros H.
  specialize (H Samples.deed_recorded_later Samples.jan_05 eq_refl).
  vm_compute in H. discriminate H.
Qed.

Lemma unset_key_in {A} key k (field : option A) :
  In key (unset_key k field) -> key = k /\ field = None.
Proof.
  destruct field; simpl; [contradiction|]. intros [<-|[]]. now split.
Qed.

(** C8, as the code has it.  [to_dict] renders a present date with
    [isoformat] of a [datetime]: the calendar date followed by [T] and the
    time of day, which is [T00:00:00] for the dates the parser builds, and
    no zone.  Every unset field is rendered as [None], which is not the
    empty string. *)
Theorem to_dict_dates_and_nulls (deed : DeedData) :
  (forall t,
      date_signed deed = Some t ->
      dict_get (to_dict deed) "date_signed"
      = Some (PyStr (DateTime.isoformat t)))
  /\ (forall t,
      date_recorded deed = Some t ->
      dict_get (to_dict deed) "date_recorded"
      = Some (PyStr (DateTime.isoformat t)))
  /\ (forall t,
      DateSpec.calendar_date t ->
      DateTime.isoformat t = DateTime.str_date t ++ "T00:00:00")
  /\ (forall key,
      In key (unset_keys deed) -> dict_get (to_dict deed) key = Some PyNone)
  /\ PyNone <> PyStr "".
Proof.
  split; [|split; [|split; [|split]]].
  - intros t H. simpl. now rewrite H.
  - intros t H. simpl. now rewrite H.
  - intros t (_ & _ & _ & Hh & Hm & Hs & Hu).
    unfold DateTime.isoformat. rewrite Hh, Hm, Hs, Hu. reflexivity.
  - intros key H. unfold unset_keys in H.
    repeat (apply in_app_or in H; destruct H as [H|H]);
      apply unset_key_in in H; destruct H as [-> E]; simpl; rewrite E;
      reflexivity.
  - discriminate.
Qed.

Lemma to_dict_dates_and_nulls_witness :
  dict_get (to_dict Samples.deed_recorded_later) "date_signed"
  = Some (PyStr "2020-01-05T00:00:00")
  /\ dict_get (to_dict Samples.deed_recorded_later) "date_recorded"
     = Some (PyStr "2020-01-10T00:00:00")
  /\ DateTime.isoformat Samples.jan_05 = "2020-01-05T00:00:00"
  /\ dict_get (to_dict Samples.deed_recorded_later) "doc_id" = Some PyNone.
Proof.
  destruct (to_dict_dates_and_nulls Samples.deed_recorded_later)
    as (H1 & H2 & H3 & H4 & _).
  split; [exact (H1 Samples.jan_05 eq_refl)|].
  split; [exact (H2 Samples.jan_10 eq_refl)|].
  split.
  - apply (H3 Samples.jan_05).
    unfold DateSpec.calendar_date, Samples.jan_05. cbn. lia.
  - apply H4. now left.
Defined.

End Serialization.

(* ================================================================== *)
(** ** Extraction *)

Module FieldExtraction.

Import Re DeedParser ParserFacts.

(** A date anchor followed by digits that are not a calendar date gives no
    date. *)
Lemma parse_date_invalid text label m g1 g2 g3 y mo d :
  search true (pat_date label) text = Some m ->
  group 1 m = Ok g1 -> group 2 m = Ok g2 -> group 3 m = Ok g3 ->
  PyNum.py_int g1 = Ok y -> PyNum.py_int g2 = Ok mo ->
  PyNum.py_int g3 = Ok d ->
  DateTime.make y mo d = Raise ValueError ->
  _parse_date text label = Ok None.
Proof.
  intros Hs H1 H2 H3 Hy Hm Hd Hv. unfold _parse_date.
  rewrite Hs, H1. simpl. rewrite Hy. simpl. rewrite H2. simpl.
  rewrite Hm. simpl. rewrite H3. simpl. rewrite Hd. simpl. rewrite Hv.
  reflexivity.
Qed.

(** Text after the amount anchor that [float] rejects gives no amount. *)
Lemma parse_amount_malformed text m g :
  search false pat_amount text = Some m -> group 1 m = Ok g ->
  PyNum.py_float (PyStr.remove_char "," g) = Raise ValueError ->
  parse_amount_numeric text = Ok None.
Proof.
  intros Hs Hg Hf. unfold parse_amount_numeric.
  rewrite Hs, Hg. simpl. rewrite Hf. reflexivity.
Qed.

(** C9.  [parse] returns a deed for every text and never raises.  Each
    field of the deed is what its own extraction gives, whatever the other
    extractions give.  A date that is present is a calendar date, so an
    anchor followed by digits that are not one (month 13, say) leaves the
    field unset; and text after the amount anchor that is not a number
    leaves the numeric amount unset. *)
Theorem parse_never_raises (raw_text : string) :
  exists deed,
    parse raw_text = Ok deed
    /\ (_extract_field raw_text pat_doc_id = Ok (doc_id deed)
        /\ _extract_field raw_text pat_county = Ok (county_raw deed)
        /\ _extract_field raw_text pat_state = Ok (state deed)
        /\ _parse_date raw_text "Date Signed" = Ok (date_signed deed)
        /\ _parse_date raw_text "Date Recorded" = Ok (date_recorded deed)
        /\ _extract_field raw_text pat_grantor = Ok (grantor deed)
        /\ _extract_field raw_text pat_grantee = Ok (grantee deed)
        /\ _extract_field raw_text pat_apn = Ok (apn deed)
        /\ _extract_field raw_text pat_status = Ok (status deed)
        /\ parse_amount_numeric raw_text = Ok (amount_numeric deed)
        /\ parse_amount_written raw_text = Ok (amount_written deed))
    /\ (forall t, date_signed deed = Some t -> DateSpec.calendar_date t)
    /\ (forall t, date_recorded deed = Some t -> DateSpec.calendar_date t)
    /\ (forall label m g1 g2 g3 y mo d,
        search true (pat_date label) raw_text = Some m ->
        group 1 m = Ok g1 -> group 2 m = Ok g2 -> group 3 m = Ok g3 ->
        PyNum.py_int g1 = Ok y -> PyNum.py_int g2 = Ok mo ->
        PyNum.py_int g3 = Ok d ->
        DateTime.make y mo d = Raise ValueError ->
        (label = "Date Signed" -> date_signed deed = None)
        /\ (label = "Date Recorded" -> date_recorded deed = None))
    /\ (forall m g,
        search false pat_amount raw_text = Some m -> group 1 m = Ok g ->
        PyNum.py_float (PyStr.remove_char "," g) = Raise ValueError ->
        amount_numeric deed = None).
Proof.
  destruct (parse_fields raw_text) as (deed & Hp & Hf).
  exists deed. split; [exact Hp|]. split; [exact Hf|].
  destruct Hf as (_ & _ & _ & E4 & E5 & _ & _ & _ & _ & E10 & _).
  destruct (parse_date_total raw_text "Date Signed") as (v4 & E4' & C4).
  destruct (parse_date_total raw_text "Date Recorded") as (v5 & E5' & C5).
  rewrite E4 in E4'. rewrite E5 in E5'.
  inversion E4'; subst v4. inversion E5'; subst v5.
  split; [exact C4|]. split; [exact C5|]. split.
  - intros label m g1 g2 g3 y mo d Hs H1 H2 H3 Hy Hm Hd Hv.
    pose proof (parse_date_invalid _ _ _ _ _ _ _ _ _ Hs H1 H2 H3 Hy Hm Hd Hv)
      as Hi.
    split; intros ->; [rewrite E4 in Hi | rewrite E5 in Hi]; now inversion Hi.
  - intros m g Hs Hg Hfl.
    pose proof (parse_amount_malformed _ _ _ Hs Hg Hfl) as Hi.
    rewrite E10 in Hi. now inversion Hi.
Qed.

Lemma parse_never_raises_witness :
  exists deed,
    parse Samples.text_bad_fields = Ok deed
    /\ date_signed deed = None
    /\ amount_numeric deed = None
    /\ status deed = Some "DRAFT".
Proof.
  destruct (parse_never_raises Samples.text_bad_fields)
    as (deed & Hp & Hf & _ & _ & Hd & Ha).
  exists deed. split; [exact Hp|]. split; [|split].
  - apply (Hd "Date Signed" ["2020"; "13"; "05"] "2020" "13" "05" 2020 13 5);
      reflexivity.
  - apply (Ha ["1.2.3"] "1.2.3"); reflexivity.
  - destruct Hf as (_ & _ & _ & _ & _ & _ & _ & _ & Hs & _).
    vm_compute in Hs. now inversion Hs.
Defined.

End FieldExtraction.

(* ================================================================== *)
(** ** The model on concrete inputs *)

Module Scenarios.

Import DeedValidator BadDeedValidator.

Example float_of_text :
  PyNum.py_float "0.1" = Ok 0.1%float
  /\ PyNum.py_float "1250000.00" = Ok 1250000%float
  /\ PyNum.py_float "9007199254740993" = Ok 9007199254740992%float
  /\ PyNum.py_float "1." = Ok 1%float
  /\ PyNum.py_float ".5" = Ok 0.5%float
  /\ PyNum.py_float "1.2.3" = Raise ValueError
  /\ PyNum.py_float "." = Raise ValueError.
Proof. repeat split. Qed.

Example float_to_text :
  PyNum.format_f true 2 1250000%float = "1,250,000.00"
  /\ PyNum.format_f true 2 0.125%float = "0.12"
  /\ PyNum.format_f true 2 999.999%float = "1,000.00"
  /\ PyNum.format_f true 2 infinity = "inf"
  /\ PyNum.format_pct0 0.5%float = "50%"
  /\ PyNum.format_pct0 0.015%float = "2%".
Proof. repeat split. Qed.

Example similarity_ratios :
  Difflib.ratio "abcd" "bcde" = 0.75%float
  /\ Difflib.ratio "tide" "diet" = 0.25%float
  /\ Difflib.ratio "diet" "tide" = 0.5%float
  /\ Difflib.ratio "" "" = 1%float
  /\ Difflib.find_longest_match (list_ascii_of_string " abcd")
       (list_ascii_of_string "abcd abcd") = (0, 4, 5)%nat.
Proof. repeat split. Qed.

Example written_amounts :
  _parse_written_amount "2 Million" = Ok (Some 2000000%float)
  /\ _parse_written_amount "1.5 Million" = Ok (Some 1500000%float)
  /\ _parse_written_amount "1 Million 500 Thousand" = Ok (Some 1500000%float)
  /\ _parse_written_amount "One Million Five Hundred Thousand" = Ok None
  /\ _parse_written_amount "" = Ok None.
Proof. repeat split. Qed.

(** Recorded after signed: rejected. *)
Example recorded_after_signed :
  exists rep,
    process_and_report Samples.db_santa_clara Samples.text_dates = Ok rep
    /\ dict_get rep "status" = Some (PyStr "REJECTED")
    /\ dict_get rep "validation_summary"
       = Some (PyDict
                 [("errors",
                   PyList ["Date logic violation: Recorded 2020-01-10 is before Signed 2020-01-05"]);
                  ("warnings", PyList []);
                  ("error_count", PyInt 1); ("warning_count", PyInt 0)]).
Proof. eexists. split; [vm_compute; reflexivity|]. split; reflexivity. Qed.

(** Recorded before signed: the check does not fire. *)
Example recorded_before_signed :
  exists deed,
    process_deed Samples.db_santa_clara
      "Date Signed: 2024-01-15 Date Recorded: 2024-01-10" = Ok deed
    /\ errors deed = [].
Proof. eexists. split; [vm_compute; reflexivity | reflexivity]. Qed.

(** A written amount in words: a warning and no error. *)
Example amount_in_words :
  exists deed,
    process_deed Samples.db_santa_clara
      "Amount: $1,500,000.00 (One Million Five Hundred Thousand)" = Ok deed
    /\ errors deed = []
    /\ warnings deed
       = ["Could not parse: One Million Five Hundred Thousand"].
Proof. eexists. split; [vm_compute; reflexivity|]. split; reflexivity. Qed.

(** An unknown county: a warning, and the deed is approved. *)
Example unknown_county :
  exists rep,
    process_and_report Samples.db_santa_clara "County: Zzyzx County" = Ok rep
    /\ dict_get rep "status" = Some (PyStr "APPROVED")
    /\ dict_get rep "validation_summary"
       = Some (PyDict
                 [("errors", PyList []);
                  ("warnings", PyList ["No match for ZZYZX COUNTY"]);
                  ("error_count", PyInt 0); ("warning_count", PyInt 1)]).
Proof. eexists. split; [vm_compute; reflexivity|]. split; reflexivity. Qed.

End Scenarios.

(* ================================================================== *)
(** ** More on jurisdiction matching *)

Module MatchingMore.

Import CountyMatcher CountySpec MatcherFacts FloatFacts.

(** A rate [get_tax_rate] returns is the rate of an entry with that name,
    up to case. *)
Lemma get_tax_rate_ok_inv : forall db n rate,
  get_tax_rate db (Some n) = Ok rate ->
  exists c, In c db /\ PyStr.upper (County.name c) = PyStr.upper n
            /\ rate = County.tax_rate c.
Proof.
  induction db as [|c db IH]; simpl; intros n rate H; [discriminate|].
  destruct (String.eqb (PyStr.upper (County.name c)) (PyStr.upper n)) eqn:E.
  - inversion H; subst. apply String.eqb_eq in E.
    exists c. repeat split; [now left | exact E].
  - destruct (IH _ _ H) as (c' & Hin & Hn & Hr).
    exists c'. repeat split; [now right | exact Hn | exact Hr].
Qed.

(** [get_tax_rate] is a case-insensitive lookup that returns the rate of
    the first entry with the name, and raises [CountyLookupError], with the
    name in the message, exactly when no entry has it. *)
Theorem get_tax_rate_lookup (db : list County.info) (name : string) :
  (forall pre c post,
      db = (pre ++ c :: post)%list ->
      PyStr.upper (County.name c) = PyStr.upper name ->
      (forall c', In c' pre ->
                  PyStr.upper (County.name c') <> PyStr.upper name) ->
      get_tax_rate db (Some name) = Ok (County.tax_rate c))
  /\ ((forall c, In c db -> PyStr.upper (County.name c) <> PyStr.upper name)
      <-> get_tax_rate db (Some name)
          = Raise (CountyLookupError ("County not found: " ++ name))).
Proof.
  split.
  - intros pre c post -> Hc Hpre.
    induction pre as [|c' pre IH]; simpl.
    + rewrite Hc, String.eqb_refl. reflexivity.
    + destruct (String.eqb_spec (PyStr.upper (County.name c'))
                  (PyStr.upper name)) as [E|E].
      * exfalso. apply (Hpre c'); [now left | exact E].
      * apply IH. intros c0 Hin. apply Hpre. now right.
  - induction db as [|c db IH]; simpl.
    + split; [reflexivity | intros _ c []].
    + destruct (String.eqb_spec (PyStr.upper (County.name c))
                  (PyStr.upper name)) as [E|E].
      * split; [|discriminate]. intros H. exfalso.
        apply (H c); [now left | exact E].
      * rewrite <- IH. split.
        -- intros H c0 Hin. apply H. now right.
        -- intros H c0 [<-|Hin]; [exact E | now apply H].
Qed.

Lemma get_tax_rate_lookup_witness :
  get_tax_rate Samples.db_los_angeles (Some "la") = Ok 0.01%float
  /\ get_tax_rate Samples.db_los_angeles (Some "Kern")
     = Raise (CountyLookupError "County not found: Kern").
Proof.
  destruct (get_tax_rate_lookup Samples.db_los_angeles "la") as [H _].
  split.
  - apply (H [County.mk_info "Los Angeles" 0.0125] (County.mk_info "LA" 0.01)
             []); [reflexivity | reflexivity |].
    intros c' [<-|[]]. discriminate.
  - destruct (get_tax_rate_lookup Samples.db_los_angeles "Kern") as [_ H2].
    apply H2. intros c [<-|[<-|[]]]; discriminate.
Defined.

(** Every result of [match_county] is the name of an entry of the table,
    spelled as in the table, and [get_tax_rate] finds a rate for it: the
    rate of an entry with that name up to case. *)
Theorem match_then_tax_rate (db : list County.info) (raw : option string)
  (n : option string) (conf : float) :
  match_county db raw = Ok (n, conf) ->
  exists c c',
    In c db /\ n = Some (County.name c)
    /\ In c' db
    /\ PyStr.upper (County.name c') = PyStr.upper (County.name c)
    /\ get_tax_rate db n = Ok (County.tax_rate c').
Proof.
  intros H.
  destruct (ValidatorFacts.match_county_result db raw)
    as [(msg & E)|(name & conf' & E & (c & Hin & Hn))];
    rewrite E in H; [discriminate|].
  inversion H; subst n conf'.
  destruct (get_tax_rate_known db name) as (rate & Er); [now exists c|].
  destruct (get_tax_rate_ok_inv _ _ _ Er) as (c' & Hin' & Hn' & ->).
  exists c, c'. rewrite Hn. repeat split; assumption.
Qed.

Lemma match_then_tax_rate_witness :
  exists c c',
    In c Samples.db_los_angeles
    /\ Some "Los Angeles" = Some (County.name c)
    /\ In c' Samples.db_los_angeles
    /\ PyStr.upper (County.name c') = PyStr.upper (County.name c)
    /\ get_tax_rate Samples.db_los_angeles (Some "Los Angeles")
       = Ok (County.tax_rate c').
Proof.
  exact (match_then_tax_rate Samples.db_los_angeles (Some "LA")
           (Some "Los Angeles") 0.95%float eq_refl).
Defined.

(** A match never has a confidence below 0.6: it is 1.0 from the exact
    rule, 0.95 from the abbreviation rule, or the similarity ratio of the
    returned entry, which is then the best of the table. *)
Theorem match_confidence_floor (db : list County.info) (raw : string)
  (n : option string) (conf : float) :
  match_county db (Some raw) = Ok (n, conf) ->
  let r := PyStr.upper (PyStr.strip raw) in
  (conf <? 0.6)%float = false
  /\ ((rule_fires db r /\ (conf = 1%float \/ conf = 0.95%float))
      \/ (no_rule db r /\ is_best db r n conf)).
Proof.
  intros H r. unfold match_county in H.
  destruct raw as [|a raw]; [discriminate|]. fold r in H.
  destruct (rule_fires_dec db r) as [Hf|Hno].
  - destruct (match_loop_fires r db None 0%float Hf) as (c & _ & _ & E).
    rewrite E in H. inversion H; subst.
    destruct (exact_rule r c); (split; [reflexivity|]); left;
      (split; [exact Hf|]); [now left | now right].
  - destruct (match_loop_fuzzy r db None 0%float Hno)
      as (bm & br & E & Hub & Hcase).
    rewrite E in H. destruct (br <? 0.6)%float eqn:Eb; [discriminate|].
    inversion H; subst. split; [exact Eb|]. right. split; [exact Hno|].
    split; [exact Hub|].
    destruct Hcase as [[-> ->]|[_ Hc]]; [left; now split | right; exact Hc].
Qed.

Lemma match_confidence_floor_witness :
  ((2 * 7 / 19)%float <? 0.6)%float = false
  /\ is_best Samples.db_santa_clara "S. CLARA" (Some "Santa Clara")
       (2 * 7 / 19)%float.
Proof.
  destruct (match_confidence_floor Samples.db_santa_clara "S. Clara"
              (Some "Santa Clara") (2 * 7 / 19)%float eq_refl)
    as (H1 & [(Hf & [E|E])|(_ & Hb)]).
  - discriminate E.
  - discriminate E.
  - split; [exact H1 | exact Hb].
Defined.

(** The abbreviation rule.  If the raw name without periods and spaces, in
    upper case, is the initials of an entry, the exact rule does not fire
    on that entry and no rule fires on an earlier one, the match is that
    entry with confidence 0.95, whatever the similarity ratios are. *)
Theorem abbreviation_match_first (db pre post : list County.info)
  (c : County.info) (raw : string) :
  raw <> "" ->
  db = (pre ++ c :: post)%list ->
  squeeze (PyStr.upper (PyStr.strip raw)) = abbrev (County.name c) ->
  PyStr.upper (PyStr.strip raw) <> PyStr.upper (County.name c) ->
  (forall c', In c' pre -> fires (PyStr.upper (PyStr.strip raw)) c' = false) ->
  match_county db (Some raw) = Ok (Some (County.name c), 0.95%float).
Proof.
  intros Hne -> Habb Hex Hpre. unfold match_county.
  destruct raw as [|a raw]; [contradiction|].
  destruct (Matching.match_loop_skip _ (c :: post) pre None 0%float Hpre)
    as (bm & br & ->).
  simpl. unfold exact_rule, abbrev_rule.
  destruct (String.eqb_spec (PyStr.upper (PyStr.strip (String a raw)))
              (PyStr.upper (County.name c))) as [E|_]; [contradiction|].
  rewrite Habb, String.eqb_refl. reflexivity.
Qed.

Lemma abbreviation_match_first_witness :
  match_county Samples.db_santa_clara (Some " s.c. ")
  = Ok (Some "Santa Clara", 0.95%float).
Proof.
  apply (abbreviation_match_first Samples.db_santa_clara [] []
           Samples.santa_clara).
  - discriminate.
  - reflexivity.
  - reflexivity.
  - discriminate.
  - intros c' [].
Defined.

End MatchingMore.
(* ================================================================== *)
(** ** What validation reads and what it changes *)

Module Effects.

Import CountyMatcher CountySpec MatcherFacts DeedValidator ValidatorFacts.
Import DeedSpec.

Lemma annotate_nothing d : annotate [] [] None d = d.
Proof. destruct d. unfold annotate. simpl. now rewrite !app_nil_r. Qed.

Lemma extracted_annotate e w upd d : extracted (annotate e w upd d) = extracted d.
Proof. reflexivity. Qed.

Lemma annotate_warning m d : add_warning m d = annotate [] [m] None d.
Proof. destruct d. unfold annotate, add_warning. simpl. now rewrite app_nil_r. Qed.

Lemma annotate_error m d : add_error m d = annotate [m] [] None d.
Proof. destruct d. unfold annotate, add_error. simpl. now rewrite app_nil_r. Qed.

Lemma annotate_county cn tr d :
  set_tax_rate tr (set_county_normalized cn d)
  = annotate [] [] (Some (cn, tr)) d.
Proof.
  destruct d. unfold annotate, set_tax_rate, set_county_normalized. simpl.
  now rewrite !app_nil_r.
Qed.

Lemma annotate_annotate w1 w2 upd d :
  annotate [] w2 upd (annotate [] w1 None d) = annotate [] (w1 ++ w2) upd d.
Proof.
  unfold annotate. simpl. now rewrite !app_nil_r, app_assoc.
Qed.

Lemma extracted_fields d d' :
  extracted d' = extracted d ->
  county_raw d' = county_raw d /\ date_signed d' = date_signed d
  /\ date_recorded d' = date_recorded d
  /\ amount_numeric d' = amount_numeric d
  /\ amount_written d' = amount_written d.
Proof. unfold extracted. intros H. inversion H. repeat split; assumption. Qed.

(** The date check reads the two dates and changes nothing. *)
Lemma date_effect d :
  exists r,
    (r = Ok tt \/ exists msg, r = Raise (DateLogicError msg))
    /\ forall d', extracted d' = extracted d ->
                  _validate_date_logic d' = (d', r).
Proof.
  exists (snd (_validate_date_logic d)). split.
  - destruct (date_check_cases d) as [E|(msg & E)]; rewrite E; simpl; eauto.
  - intros d' H. apply extracted_fields in H as (_ & Hs & Hr & _).
    unfold _validate_date_logic, bind, get, raise, ret. rewrite Hs, Hr.
    destruct (date_signed d); [|reflexivity].
    destruct (date_recorded d); [|reflexivity].
    now destruct (DateTime.gt _ _).
Qed.

(** The amount check reads the two amounts; it raises and changes nothing,
    or returns after appending at most one warning. *)
Lemma amount_effect d :
  exists w r,
    ((r = Ok tt /\ (List.length w <= 1)%nat)
     \/ (w = [] /\ exists msg, r = Raise (AmountMismatchError msg)))
    /\ forall d', extracted d' = extracted d ->
                  _validate_amount_reconciliation d' = (annotate [] w None d', r).
Proof.
  assert (K : forall w r,
             (forall d', extracted d' = extracted d ->
                _validate_amount_reconciliation d' = (annotate [] w None d', r))
             -> ((r = Ok tt /\ (List.length w <= 1)%nat)
                 \/ (w = [] /\ exists msg, r = Raise (AmountMismatchError msg)))
             -> exists w r,
               ((r = Ok tt /\ (List.length w <= 1)%nat)
                \/ (w = [] /\ exists msg, r = Raise (AmountMismatchError msg)))
               /\ forall d', extracted d' = extracted d ->
                  _validate_amount_reconciliation d'
                  = (annotate [] w None d', r)) by eauto.
  assert (U : forall d', extracted d' = extracted d ->
                amount_numeric d' = amount_numeric d
                /\ amount_written d' = amount_written d).
  { intros d' H. apply extracted_fields in H. tauto. }
  destruct (amount_numeric d) as [n|] eqn:En.
  2:{ apply (K [] (Ok tt)); [|left; split; [reflexivity | simpl; lia]].
      intros d' H. destruct (U d' H) as [H1 _].
      unfold _validate_amount_reconciliation, bind, get, ret.
      rewrite H1, annotate_nothing. reflexivity. }
  destruct (amount_written d) as [wr|] eqn:Ew.
  2:{ apply (K [] (Ok tt)); [|left; split; [reflexivity | simpl; lia]].
      intros d' H. destruct (U d' H) as [H1 H2].
      unfold _validate_amount_reconciliation, bind, get, ret.
      rewrite H1, H2, annotate_nothing. reflexivity. }
  destruct (not_float (Some n) || not_str (Some wr)) eqn:Eg.
  { apply (K [] (Ok tt)); [|left; split; [reflexivity | simpl; lia]].
    intros d' H. destruct (U d' H) as [H1 H2].
    unfold _validate_amount_reconciliation, bind, get, ret.
    rewrite H1, H2, Eg, annotate_nothing. reflexivity. }
  destruct (parse_written_amount_total wr) as ([x|] & Ep).
  - destruct (0.01 <? abs (n - x))%float eqn:Ec.
    + apply (K [] (Raise (AmountMismatchError
                            (amount_mismatch_msg n wr (abs (n - x)))))).
      * intros d' H. destruct (U d' H) as [H1 H2].
        unfold _validate_amount_reconciliation, bind, get, lift, raise.
        rewrite H1, H2, Eg, Ep, Ec, annotate_nothing. reflexivity.
      * right. split; [reflexivity | eauto].
    + apply (K [] (Ok tt)); [|left; split; [reflexivity | simpl; lia]].
      intros d' H. destruct (U d' H) as [H1 H2].
      unfold _validate_amount_reconciliation, bind, get, lift, ret.
      rewrite H1, H2, Eg, Ep, Ec, annotate_nothing. reflexivity.
  - apply (K [could_not_parse_msg wr] (Ok tt));
      [|left; split; [reflexivity | simpl; lia]].
    intros d' H. destruct (U d' H) as [H1 H2].
    unfold _validate_amount_reconciliation, bind, get, lift, modify.
    rewrite H1, H2, Eg, Ep, annotate_warning. reflexivity.
Qed.

(** Enrichment reads the raw county; it never raises, appends at most one
    warning and sets the normalized county and the tax rate together. *)
Lemma enrich_effect db d :
  exists w upd,
    (List.length w <= 1)%nat
    /\ (not_str (county_raw d) = true -> w = [] /\ upd = None)
    /\ (upd = None
        \/ exists c c',
            In c db /\ In c' db
            /\ PyStr.upper (County.name c') = PyStr.upper (County.name c)
            /\ upd = Some (Some (County.name c), Some (County.tax_rate c')))
    /\ forall d', extracted d' = extracted d ->
                  _enrich_county db d' = (annotate [] w upd d', Ok tt).
Proof.
  assert (U : forall d', extracted d' = extracted d ->
                         county_raw d' = county_raw d).
  { intros d' H. apply extracted_fields in H. tauto. }
  destruct (not_str (county_raw d)) eqn:En.
  { exists [], None. split; [simpl; lia|]. split; [now split|].
    split; [now left|]. intros d' H.
    unfold _enrich_county, try_except, bind, get, ret.
    rewrite (U d' H), En, annotate_nothing. reflexivity. }
  destruct (match_county_result db (county_raw d))
    as [(msg & E)|(name & conf & E & (c & Hin & Hn))].
  - exists [msg], None. split; [simpl; lia|]. split; [discriminate|].
    split; [now left|]. intros d' H.
    unfold _enrich_county, try_except, bind, get, lift, modify.
    rewrite (U d' H), En, E. simpl. now rewrite annotate_warning.
  - destruct (get_tax_rate_known db name) as (rate & Er); [now exists c|].
    destruct (MatchingMore.get_tax_rate_ok_inv _ _ _ Er)
      as (c' & Hin' & Hn' & ->).
    exists (if (conf <? 0.9)%float then [low_confidence_msg conf] else []),
      (Some (Some name, Some (County.tax_rate c'))).
    split; [destruct (conf <? 0.9)%float; simpl; lia|].
    split; [discriminate|].
    split.
    { right. exists c, c'. rewrite Hn. repeat split; assumption. }
    intros d' H.
    unfold _enrich_county, try_except, bind, get, lift, modify, ret.
    rewrite (U d' H), En, E. simpl. rewrite Er.
    destruct (conf <? 0.9)%float.
    + rewrite annotate_county, annotate_warning.
      unfold annotate. simpl. now rewrite !app_nil_r.
    + now rewrite annotate_county.
Qed.

(** The whole of [validate], as one annotation that depends only on the
    table and on the extracted fields. *)
Lemma validate_effect db d :
  exists e w upd,
    (List.length e <= 1)%nat /\ (List.length w <= 2)%nat
    /\ (e <> [] -> w = [] /\ upd = None)
    /\ forall d', extracted d' = extracted d ->
                  validate db d' = Ok (annotate e w upd d').
Proof.
  destruct (date_effect d) as (r1 & Hr1 & E1).
  destruct Hr1 as [->|(msg & ->)].
  2:{ exists [msg], [], None. split; [simpl; lia|]. split; [simpl; lia|].
      split; [now split|]. intros d' H.
      unfold validate, validate_body, try_except, bind.
      rewrite (E1 d' H). simpl. now rewrite annotate_error. }
  destruct (amount_effect d) as (w1 & r2 & Hr2 & E2).
  destruct Hr2 as [[-> L1]|[-> (msg & ->)]].
  2:{ exists [msg], [], None. split; [simpl; lia|]. split; [simpl; lia|].
      split; [now split|]. intros d' H.
      unfold validate, validate_body, try_except, bind.
      rewrite (E1 d' H). simpl. rewrite (E2 d' H). simpl.
      now rewrite annotate_nothing, annotate_error. }
  destruct (enrich_effect db d) as (w2 & upd & L2 & _ & _ & E3).
  exists [], (w1 ++ w2)%list, upd.
  split; [simpl; lia|]. split; [rewrite length_app; lia|].
  split; [intros C; now contradiction C|]. intros d' H.
  unfold validate, validate_body, try_except, bind.
  rewrite (E1 d' H). simpl. rewrite (E2 d' H). simpl.
  rewrite (E3 (annotate [] w1 None d')) by (rewrite extracted_annotate; exact H).
  now rewrite annotate_annotate.
Qed.

End Effects.
(* ================================================================== *)
(** ** Enrichment and validation as a whole *)

Module ValidationMore.

Import CountyMatcher CountySpec MatcherFacts DeedValidator ValidatorFacts.
Import DeedSpec Effects.

(** [_enrich_county] never raises.  It leaves the extracted fields and the
    errors as they are and appends at most one warning; it does nothing at
    all when the raw county is unset or empty; and it sets the normalized
    county and the tax rate only together, to the name of an entry of the
    table and to the rate of an entry with that name up to case. *)
Theorem enrich_county_frame (db : list County.info) (d : DeedData) :
  exists d' w,
    _enrich_county db d = (d', Ok tt)
    /\ extracted d' = extracted d
    /\ errors d' = errors d
    /\ warnings d' = (warnings d ++ w)%list /\ (List.length w <= 1)%nat
    /\ (not_str (county_raw d) = true -> d' = d)
    /\ ((county_normalized d' = county_normalized d
         /\ tax_rate d' = tax_rate d)
        \/ exists c c',
            In c db /\ In c' db
            /\ PyStr.upper (County.name c') = PyStr.upper (County.name c)
            /\ county_normalized d' = Some (County.name c)
            /\ tax_rate d' = Some (County.tax_rate c')).
Proof.
  destruct (enrich_effect db d) as (w & upd & L & Hn & Hu & E).
  exists (annotate [] w upd d), w.
  split; [now apply E|]. split; [reflexivity|].
  split; [simpl; now rewrite app_nil_r|]. split; [reflexivity|].
  split; [exact L|]. split.
  - intros H. destruct (Hn H) as [-> ->]. apply annotate_nothing.
  - destruct Hu as [->|(c & c' & Hin & Hin' & Hup & ->)].
    + left. now split.
    + right. exists c, c'. repeat split; assumption.
Qed.

Lemma enrich_county_frame_witness :
  _enrich_county Samples.db_santa_clara Samples.deed_dates
  = (Samples.deed_dates, Ok tt).
Proof.
  destruct (enrich_county_frame Samples.db_santa_clara Samples.deed_dates)
    as (d' & w & E & _ & _ & _ & _ & H & _).
  rewrite E. now rewrite (H eq_refl).
Defined.

(** When the exact or the abbreviation rule fires for the raw county of a
    deed, enrichment sets the normalized county to the entry the rule fired
    on and the tax rate to a rate of the table, and appends no warning:
    the confidences 1.0 and 0.95 are not below 0.9. *)
Theorem enrich_by_rule_is_silent (db : list County.info) (d : DeedData)
  (raw : string) :
  county_raw d = Some raw -> raw <> "" ->
  rule_fires db (PyStr.upper (PyStr.strip raw)) ->
  exists c rate,
    In c db /\ fires (PyStr.upper (PyStr.strip raw)) c = true
    /\ get_tax_rate db (Some (County.name c)) = Ok rate
    /\ _enrich_county db d
       = (set_tax_rate (Some rate)
            (set_county_normalized (Some (County.name c)) d), Ok tt).
Proof.
  intros Hraw Hne Hf.
  destruct (match_loop_fires _ db None 0%float Hf) as (c & Hin & Hfc & E).
  destruct (get_tax_rate_known db (County.name c)) as (rate & Er);
    [now exists c|].
  exists c, rate. repeat split; try assumption.
  unfold _enrich_county, try_except, bind, get, lift, modify, ret.
  rewrite Hraw. destruct raw as [|a raw]; [contradiction|].
  unfold match_county. simpl negb. cbv iota. rewrite E. simpl. rewrite Er.
  destruct (exact_rule _ c); reflexivity.
Qed.

Lemma enrich_by_rule_is_silent_witness :
  exists c rate,
    In c Samples.db_santa_clara
    /\ _enrich_county Samples.db_santa_clara (Samples.deed_county "s.c.")
       = (set_tax_rate (Some rate)
            (set_county_normalized (Some (County.name c))
               (Samples.deed_county "s.c.")), Ok tt).
Proof.
  destruct (enrich_by_rule_is_silent Samples.db_santa_clara
              (Samples.deed_county "s.c.") "s.c." eq_refl)
    as (c & rate & Hin & _ & _ & E).
  - discriminate.
  - exists Samples.santa_clara. split; [now left | reflexivity].
  - exists c, rate. split; [exact Hin | exact E].
Defined.

(** [validate] never raises.  It leaves every extracted field as it is,
    appends at most one error and at most two warnings, and when it appends
    an error it changes nothing else: no warning, no normalized county, no
    tax rate. *)
Theorem validate_frame (db : list County.info) (d : DeedData) :
  exists d' e w,
    validate db d = Ok d'
    /\ extracted d' = extracted d
    /\ errors d' = (errors d ++ e)%list /\ (List.length e <= 1)%nat
    /\ warnings d' = (warnings d ++ w)%list /\ (List.length w <= 2)%nat
    /\ (e <> [] ->
        warnings d' = warnings d
        /\ county_normalized d' = county_normalized d
        /\ tax_rate d' = tax_rate d).
Proof.
  destruct (validate_effect db d) as (e & w & upd & Le & Lw & He & E).
  exists (annotate e w upd d), e, w.
  split; [now apply E|]. repeat (split; [reflexivity || assumption|]).
  intros H. destruct (He H) as [-> ->]. simpl. now rewrite app_nil_r.
Qed.

Lemma validate_frame_witness :
  exists d',
    validate Samples.db_santa_clara Samples.deed_recorded_later = Ok d'
    /\ county_normalized d' = None /\ tax_rate d' = None
    /\ warnings d' = [].
Proof.
  destruct (validate_frame Samples.db_santa_clara
              Samples.deed_recorded_later)
    as (d' & e & w & E & _ & He & _ & _ & _ & H).
  exists d'. split; [exact E|].
  assert (Hne : e <> []).
  { intros ->. vm_compute in E. inversion E; subst d'. discriminate He. }
  destruct (H Hne) as (H1 & H2 & H3). rewrite H1, H2, H3. now repeat split.
Defined.

(** Validating a deed that was already validated repeats the messages: the
    second pass appends the same errors and the same warnings again and
    changes nothing else. *)
Theorem validate_twice (db : list County.info) (d d1 d2 : DeedData) :
  validate db d = Ok d1 -> validate db d1 = Ok d2 ->
  exists e w,
    errors d1 = (errors d ++ e)%list /\ errors d2 = (errors d1 ++ e)%list
    /\ warnings d1 = (warnings d ++ w)%list
    /\ warnings d2 = (warnings d1 ++ w)%list
    /\ extracted d2 = extracted d1
    /\ county_normalized d2 = county_normalized d1
    /\ tax_rate d2 = tax_rate d1.
Proof.
  intros H1 H2.
  destruct (validate_effect db d) as (e & w & upd & _ & _ & _ & E).
  rewrite (E d eq_refl) in H1. inversion H1; subst d1.
  rewrite (E (annotate e w upd d)) in H2 by apply extracted_annotate.
  inversion H2; subst d2.
  exists e, w. repeat split; destruct upd as [[cn tr]|]; reflexivity.
Qed.

Lemma validate_twice_witness :
  exists e w : list string,
    errors (add_error
              "Date logic violation: Recorded 2020-01-10 is before Signed 2020-01-05"
              Samples.deed_recorded_later)
    = (errors Samples.deed_recorded_later ++ e)%list
    /\ e <> [] /\ w = [].
Proof.
  destruct (validate_twice Samples.db_santa_clara
              Samples.deed_recorded_later
              (add_error
                 "Date logic violation: Recorded 2020-01-10 is before Signed 2020-01-05"
                 Samples.deed_recorded_later)
              (add_error
                 "Date logic violation: Recorded 2020-01-10 is before Signed 2020-01-05"
                 (add_error
                    "Date logic violation: Recorded 2020-01-10 is before Signed 2020-01-05"
                    Samples.deed_recorded_later))
              eq_refl eq_refl)
    as (e & w & E1 & _ & W1 & _).
  exists e, w. split; [exact E1|]. split.
  - intros ->. discriminate E1.
  - simpl in W1. now destruct w.
Defined.

End ValidationMore.
(* ================================================================== *)
(** ** More on what the patterns capture *)

Module ReMore.

Import Re ReSem ReFacts.

(** A match found by [search] starts somewhere in the text. *)
Lemma search_suffix ic r : forall s m,
  search ic r s = Some m ->
  exists pre s0 s', s = pre ++ s0 /\ run ic r s0 [] s' m.
Proof.
  induction s as [|a s IH]; simpl; intros m H.
  - destruct (match_here ic r EmptyString) eqn:E; [|discriminate].
    inversion H; subst. destruct (match_here_sound _ _ _ _ E) as (s' & Hr).
    now exists EmptyString, EmptyString, s'.
  - destruct (match_here ic r (String a s)) eqn:E.
    + inversion H; subst. destruct (match_here_sound _ _ _ _ E) as (s' & Hr).
      now exists EmptyString, (String a s), s'.
    + destruct (IH _ H) as (pre & s0 & s' & -> & Hr).
      now exists (String a pre), s0, s'.
Qed.

Lemma run_rep_chars ic p : forall n s g s' g',
  run ic (Rep n p) s g s' g' ->
  exists t, PyStr.all_chars p t = true /\ String.length t = n /\ s = t ++ s'.
Proof.
  induction n as [|n IH]; simpl; intros s g s' g' H.
  - inversion H; subst. now exists EmptyString.
  - inversion H as [ | | | | |? ? ? ? s1 g1 ? ? Ha Hb| | | ]; subst.
    inversion Ha; subst. destruct (IH _ _ _ _ Hb) as (t & Ht & Hl & ->).
    exists (String a t). simpl.
    match goal with Hp : p a = true |- _ => rewrite Hp end.
    rewrite Ht, Hl. now repeat split.
Qed.

(** The group of a labelled pattern is what its value part consumed. *)
Lemma labelled_group value text m :
  ngroups value = 0%nat ->
  forall label,
  search true (DeedParser.labelled label value) text = Some m ->
  exists s1 s2,
    run true value s1 [] s2 []
    /\ m = [PyStr.take (String.length s1 - String.length s2) s1].
Proof.
  intros Hn label Hs.
  destruct (search_sound _ _ _ _ Hs) as (s0 & s' & Hr).
  unfold DeedParser.labelled in Hr. cbn [DeedParser.cat] in Hr.
  apply ParserFacts.run_skip in Hr as (s1 & Hr); [|apply NumFacts.ngroups_Str].
  apply ParserFacts.run_skip in Hr as (s2 & Hr); [|reflexivity].
  apply ParserFacts.run_skip in Hr as (s3 & Hr); [|reflexivity].
  apply ParserFacts.run_skip in Hr as (s4 & Hr); [|reflexivity].
  inversion Hr as [ | | | | | | | |r s5 g5 s6 g6 Hv]; subst.
  assert (g6 = []) as -> by (eapply run_no_groups; eassumption).
  now exists s4, s'.
Qed.

Lemma all_chars_append p a b :
  PyStr.all_chars p (a ++ b) = PyStr.all_chars p a && PyStr.all_chars p b.
Proof.
  induction a; simpl; [reflexivity | now rewrite IHa, andb_assoc].
Qed.

(** Text without white space is left alone by [strip]. *)
Lemma strip_no_space t :
  PyStr.all_chars non_space t = true -> PyStr.strip t = t.
Proof.
  unfold PyStr.strip. intros H.
  assert (L : PyStr.lstrip t = t).
  { destruct t as [|a t]; [reflexivity|]. simpl in *.
    apply andb_true_iff in H as [Ha _]. unfold non_space in Ha.
    now destruct (PyStr.is_space a). }
  rewrite L. clear L. induction t as [|a t IH]; [reflexivity|].
  simpl in *. apply andb_true_iff in H as [Ha Ht]. rewrite (IH Ht).
  unfold non_space in Ha. destruct t; [|reflexivity].
  now destruct (PyStr.is_space a).
Qed.

Lemma word_non_space a : PyStr.is_word a = true -> non_space a = true.
Proof.
  destruct a as [[] [] [] [] [] [] [] []]; vm_compute; congruence.
Qed.

Lemma all_word_non_space t :
  PyStr.all_chars PyStr.is_word t = true ->
  PyStr.all_chars non_space t = true.
Proof.
  induction t as [|a t IH]; simpl; [reflexivity|]. intros H.
  apply andb_true_iff in H as [Ha Ht].
  now rewrite (word_non_space a Ha), (IH Ht).
Qed.

End ReMore.

(* ================================================================== *)
(** ** Written amounts *)

Module WrittenAmounts.

Import Re ReSem ReFacts ReMore DeedValidator ValidatorFacts.

(** A match of the number pattern starts with a digit. *)
Lemma pat_number_starts ic unit s s' m :
  run ic (pat_number unit) s [] s' m ->
  exists a rest, s = String a rest /\ PyStr.is_digit a = true.
Proof.
  unfold pat_number. cbn [DeedParser.cat]. intros H.
  inversion H as [ | | | | |? ? ? ? ? ? ? ? Hg _| | | ]; subst.
  inversion Hg as [ | | | | | | | |? ? ? ? ? Hn]; subst.
  inversion Hn as [ | | | | |? ? ? ? ? ? ? ? Hi _| | | ]; subst.
  unfold Plus in Hi.
  inversion Hi as [ | | | | |? ? ? ? ? ? ? ? Hc _| | | ]; subst.
  inversion Hc; subst. eauto.
Qed.

Lemma add_component_no_digit written unit scale amount :
  PyStr.all_chars non_digit written = true ->
  add_component written unit scale amount = Ok amount.
Proof.
  intros H. unfold add_component.
  destruct (PyStr.contains unit written); [|reflexivity].
  destruct (search false (pat_number unit) written) as [m|] eqn:E;
    [|reflexivity].
  destruct (search_suffix _ _ _ _ E) as (pre & s0 & s' & -> & Hr).
  destruct (pat_number_starts _ _ _ _ _ Hr) as (a & rest & -> & Ha).
  rewrite all_chars_append in H. apply andb_true_iff in H as [_ H].
  simpl in H. unfold non_digit in H. rewrite Ha in H. discriminate.
Qed.

Lemma add_component_no_unit written unit scale amount :
  PyStr.contains unit written = false ->
  add_component written unit scale amount = Ok amount.
Proof. intros H. unfold add_component. now rewrite H. Qed.

(** [_parse_written_amount] never raises: the text it passes to [float] is
    always a number.  It returns an amount only when the text has a digit
    and one of the words [Million] and [Thousand], and the amount is then
    greater than zero; so an amount written in words alone never parses,
    and the amount check of such a deed appends the warning
    [Could not parse: ...] and raises nothing. *)
Theorem written_amount_parsing (written : string) :
  (exists r, _parse_written_amount written = Ok r)
  /\ (forall W,
      _parse_written_amount written = Ok (Some W) ->
      (0 <? W)%float = true
      /\ PyStr.all_chars non_digit written = false
      /\ (PyStr.contains "Million" written
          || PyStr.contains "Thousand" written) = true)
  /\ (forall deed N,
      amount_numeric deed = Some N -> PyNum.truthy N = true ->
      amount_written deed = Some written -> written <> "" ->
      PyStr.all_chars non_digit written = true ->
      _validate_amount_reconciliation deed
      = (add_warning (could_not_parse_msg written) deed, Ok tt)).
Proof.
  assert (Z0 : PyStr.all_chars non_digit written = true ->
               _parse_written_amount written = Ok None).
  { intros H. unfold _parse_written_amount.
    rewrite add_component_no_digit by exact H. cbn [rbind].
    rewrite add_component_no_digit by exact H. reflexivity. }
  split; [apply parse_written_amount_total|]. split.
  - intros W H. split; [|split].
    + unfold _parse_written_amount in H.
      destruct (add_component_total written "Million" 1000000 0)
        as (a1 & E1).
      rewrite E1 in H. simpl in H.
      destruct (add_component_total written "Thousand" 1000 a1) as (a2 & E2).
      rewrite E2 in H. simpl in H.
      destruct (0 <? a2)%float eqn:E; inversion H; subst. exact E.
    + destruct (PyStr.all_chars non_digit written) eqn:E; [|reflexivity].
      rewrite (Z0 eq_refl) in H. discriminate.
    + destruct (PyStr.contains "Million" written) eqn:Em; [reflexivity|].
      destruct (PyStr.contains "Thousand" written) eqn:Et; [reflexivity|].
      unfold _parse_written_amount in H.
      rewrite add_component_no_unit in H by assumption. cbn [rbind] in H.
      rewrite add_component_no_unit in H by assumption. discriminate.
  - intros deed N HN Ht Hw Hne Hd.
    unfold _validate_amount_reconciliation, bind, get, lift, modify.
    rewrite HN, Hw. unfold not_float. rewrite Ht.
    destruct written as [|a w]; [contradiction|]. simpl negb. simpl orb.
    cbv iota. rewrite (Z0 Hd). reflexivity.
Qed.

Lemma written_amount_parsing_witness :
  ((0 <? 1500000)%float = true
   /\ PyStr.all_chars non_digit "1 Million 500 Thousand" = false)
  /\ _validate_amount_reconciliation
       (Samples.deed_amounts 1500000 "One Million Five Hundred Thousand")
     = (add_warning "Could not parse: One Million Five Hundred Thousand"
          (Samples.deed_amounts 1500000 "One Million Five Hundred Thousand"),
        Ok tt).
Proof.
  split.
  - destruct (written_amount_parsing "1 Million 500 Thousand") as (_ & H & _).
    destruct (H 1500000%float eq_refl) as (H1 & H2 & _). now split.
  - destruct (written_amount_parsing "One Million Five Hundred Thousand")
      as (_ & _ & H).
    apply (H _ 1500000%float); try reflexivity. discriminate.
Defined.

End WrittenAmounts.
(* ================================================================== *)
(** ** More on extraction *)

Module ExtractionMore.

Import Re ReSem ReFacts ReMore DeedParser ParserFacts DeedSpec.

(** A deed fresh from [parse] carries no annotation. *)
Lemma parse_fresh raw deed :
  parse raw = Ok deed ->
  errors deed = [] /\ warnings deed = [] /\ county_normalized deed = None
  /\ tax_rate deed = None.
Proof.
  unfold parse. intros H.
  repeat match type of H with
         | rbind ?r _ = _ =>
             destruct r as [?|?]; cbn [rbind] in H; [|discriminate H]
         end.
  inversion H; subst. now repeat split.
Qed.

Lemma parse_field_eqs raw deed :
  parse raw = Ok deed ->
  _extract_field raw pat_doc_id = Ok (doc_id deed)
  /\ _extract_field raw pat_state = Ok (state deed)
  /\ _extract_field raw pat_apn = Ok (apn deed)
  /\ _extract_field raw pat_status = Ok (status deed)
  /\ _parse_date raw "Date Signed" = Ok (date_signed deed)
  /\ _parse_date raw "Date Recorded" = Ok (date_recorded deed)
  /\ _extract_field raw pat_county = Ok (county_raw deed)
  /\ _extract_field raw pat_grantor = Ok (grantor deed)
  /\ _extract_field raw pat_grantee = Ok (grantee deed).
Proof.
  intros H. destruct (parse_fields raw) as (deed' & Hp & Hf).
  rewrite Hp in H. inversion H; subst deed'. tauto.
Qed.


(** What [_extract_field] returns for a labelled pattern. *)
Lemma extract_field_value text label value v :
  ngroups value = 0%nat ->
  _extract_field text (labelled label value) = Ok (Some v) ->
  exists s1 s2,
    run true value s1 [] s2 []
    /\ v = PyStr.strip (PyStr.take (String.length s1 - String.length s2) s1).
Proof.
  intros Hn H. unfold _extract_field in H.
  destruct (search true (labelled label value) text) as [m|] eqn:E;
    [|discriminate].
  destruct (labelled_group value text m Hn label E) as (s1 & s2 & Hr & ->).
  simpl in H. inversion H. eauto.
Qed.

Lemma extract_non_space text label v :
  _extract_field text (labelled label (Plus non_space)) = Ok (Some v) ->
  v <> "" /\ PyStr.all_chars non_space v = true.
Proof.
  intros H.
  destruct (extract_field_value text label (Plus non_space) v eq_refl H)
    as (s1 & s2 & Hr & ->).
  destruct (NumFacts.run_plus_chars _ _ _ _ _ _ Hr) as (t & Ht & Hne & ->).
  rewrite take_append, (strip_no_space t Ht). now split.
Qed.

Lemma all_chars_lstrip p s :
  PyStr.all_chars p s = true -> PyStr.all_chars p (PyStr.lstrip s) = true.
Proof.
  induction s as [|a s IH]; simpl; [reflexivity|]. intros H.
  destruct (PyStr.is_space a); [|exact H].
  apply IH. now apply andb_true_iff in H as [_ H].
Qed.

Lemma all_chars_rstrip p s :
  PyStr.all_chars p s = true -> PyStr.all_chars p (PyStr.rstrip s) = true.
Proof.
  induction s as [|a s IH]; simpl; [reflexivity|]. intros H.
  apply andb_true_iff in H as [Ha Hs]. specialize (IH Hs).
  destruct (PyStr.rstrip s).
  - destruct (PyStr.is_space a); simpl; [reflexivity | now rewrite Ha].
  - simpl in *. now rewrite Ha, IH.
Qed.

(** A value extracted with a repeated class has its characters in it. *)
Lemma extract_plus_chars text label p v :
  _extract_field text (labelled label (Plus p)) = Ok (Some v) ->
  PyStr.all_chars p v = true.
Proof.
  intros H.
  destruct (extract_field_value text label (Plus p) v eq_refl H)
    as (s1 & s2 & Hr & ->).
  destruct (NumFacts.run_plus_chars _ _ _ _ _ _ Hr) as (t & Ht & _ & ->).
  rewrite take_append. unfold PyStr.strip.
  now apply all_chars_rstrip, all_chars_lstrip.
Qed.

(** The shape of the extracted fields.  A document identifier and a parcel
    number, when present, are not empty and have no white space; a state is
    exactly two word characters (letters, digits or underscore); a status
    is one or more word characters; a raw county has no [|] and no line
    break, a grantor and a grantee have no line break.  The deed carries no
    error, no warning, no normalized county and no tax rate yet. *)
Theorem extracted_field_shapes (raw : string) (deed : DeedData) :
  parse raw = Ok deed ->
  (forall v, doc_id deed = Some v ->
             v <> "" /\ PyStr.all_chars non_space v = true)
  /\ (forall v, apn deed = Some v ->
                v <> "" /\ PyStr.all_chars non_space v = true)
  /\ (forall v, state deed = Some v ->
                String.length v = 2%nat
                /\ PyStr.all_chars PyStr.is_word v = true)
  /\ (forall v, status deed = Some v ->
                v <> "" /\ PyStr.all_chars PyStr.is_word v = true)
  /\ (forall v, county_raw deed = Some v ->
                PyStr.all_chars
                  (fun a => negb (Ascii.eqb a "|" || Ascii.eqb a newline)) v
                = true)
  /\ (forall v, grantor deed = Some v ->
                PyStr.all_chars (none_of newline) v = true)
  /\ (forall v, grantee deed = Some v ->
                PyStr.all_chars (none_of newline) v = true)
  /\ errors deed = [] /\ warnings deed = []
  /\ county_normalized deed = None /\ tax_rate deed = None.
Proof.
  intros H. pose proof (parse_fresh _ _ H) as F.
  destruct (parse_field_eqs _ _ H)
    as (E1 & E2 & E3 & E4 & _ & _ & E5 & E6 & E7).
  split; [|split; [|split; [|split; [|split; [|split; [|split;
    [|exact F]]]]]]].
  5:{ intros v Hv. rewrite Hv in E5.
      exact (extract_plus_chars raw "County" _ v E5). }
  5:{ intros v Hv. rewrite Hv in E6.
      exact (extract_plus_chars raw "Grantor" _ v E6). }
  5:{ intros v Hv. rewrite Hv in E7.
      exact (extract_plus_chars raw "Grantee" _ v E7). }
  - intros v Hv. rewrite Hv in E1. exact (extract_non_space raw "Doc" v E1).
  - intros v Hv. rewrite Hv in E3. exact (extract_non_space raw "APN" v E3).
  - intros v Hv. rewrite Hv in E2.
    destruct (extract_field_value raw "State" (Rep 2 PyStr.is_word) v
                eq_refl E2) as (s1 & s2 & Hr & ->).
    destruct (run_rep_chars _ _ _ _ _ _ _ Hr) as (t & Ht & Hl & ->).
    rewrite take_append, (strip_no_space t (all_word_non_space t Ht)).
    now split.
  - intros v Hv. rewrite Hv in E4.
    destruct (extract_field_value raw "Status" (Plus PyStr.is_word) v
                eq_refl E4) as (s1 & s2 & Hr & ->).
    destruct (NumFacts.run_plus_chars _ _ _ _ _ _ Hr) as (t & Ht & Hne & ->).
    rewrite take_append, (strip_no_space t (all_word_non_space t Ht)).
    now split.
Qed.

Lemma extracted_field_shapes_witness :
  String.length "CA" = 2%nat /\ PyStr.all_chars PyStr.is_word "CA" = true.
Proof.
  destruct (extracted_field_shapes "County: S. Clara | State: California"
              (mk_DeedData None (Some "S. Clara") None (Some "Ca") None None
                 None None None None None None None [] []))
    as (_ & _ & H & _); [reflexivity|].
  destruct (H "Ca" eq_refl) as [H1 _]. split; [exact H1 | reflexivity].
Defined.

End ExtractionMore.

(* ================================================================== *)
(** ** The pipeline *)

Module Pipeline.

Import DeedValidator BadDeedValidator DeedSpec Effects.

(** [process_and_report] never raises.  The deed it reports has the fields
    [parse] extracted, at most one error and at most two warnings, and the
    status is APPROVED with no error and REJECTED with one. *)
Theorem process_and_report_summary (db : list County.info) (raw : string) :
  exists parsed deed,
    DeedParser.parse raw = Ok parsed
    /\ process_deed db raw = Ok deed
    /\ process_and_report db raw = Ok (report deed)
    /\ extracted deed = extracted parsed
    /\ (List.length (errors deed) <= 1)%nat
    /\ (List.length (warnings deed) <= 2)%nat
    /\ (errors deed = []
        <-> dict_get (report deed) "status" = Some (PyStr "APPROVED"))
    /\ (List.length (errors deed) = 1%nat
        <-> dict_get (report deed) "status" = Some (PyStr "REJECTED")).
Proof.
  destruct (ParserFacts.parse_fields raw) as (parsed & Hp & _).
  destruct (ExtractionMore.parse_fresh _ _ Hp) as (He & Hw & _).
  destruct (validate_effect db parsed) as (e & w & upd & Le & Lw & _ & E).
  exists parsed, (annotate e w upd parsed).
  split; [exact Hp|].
  assert (V : process_deed db raw = Ok (annotate e w upd parsed)).
  { unfold process_deed. rewrite Hp. simpl. now apply E. }
  split; [exact V|].
  split; [unfold process_and_report; now rewrite V|].
  split; [reflexivity|]. simpl errors. simpl warnings. rewrite He, Hw. simpl.
  split; [exact Le|]. split; [exact Lw|].
  unfold report_status. simpl. rewrite He. simpl.
  destruct e as [|m [|m' e]]; simpl in *; try lia;
    split; split; intros H; try reflexivity; try discriminate H.
Qed.

(** What rejects a deed.  The report of a text is REJECTED exactly when the
    date-order check or the amount check raises on the deed extracted from
    it; nothing else rejects, a failed county lookup in particular. *)
Theorem rejection_causes (db : list County.info) (raw : string)
  (parsed : DeedData) (rep : list (string * pyval)) :
  DeedParser.parse raw = Ok parsed ->
  process_and_report db raw = Ok rep ->
  (dict_get rep "status" = Some (PyStr "REJECTED")
   <-> ((exists msg, _validate_date_logic parsed
                     = (parsed, Raise (DateLogicError msg)))
        \/ (exists msg, _validate_amount_reconciliation parsed
                        = (parsed, Raise (AmountMismatchError msg)))))
  /\ (dict_get rep "status" = Some (PyStr "REJECTED")
      \/ dict_get rep "status" = Some (PyStr "APPROVED")).
Proof.
  intros Hp Hr. destruct (ExtractionMore.parse_fresh _ _ Hp) as (He & _).
  unfold process_and_report, process_deed in Hr. rewrite Hp in Hr.
  simpl in Hr. unfold validate, validate_body, try_except, bind in Hr.
  destruct (ValidatorFacts.date_check_cases parsed) as [Ed|(msg & Ed)];
    rewrite Ed in Hr; simpl in Hr.
  2:{ inversion Hr; subst rep. simpl. unfold report_status. simpl.
      rewrite He. simpl. split; [|now left].
      split; [intros _; left; eauto|reflexivity]. }
  destruct (ValidatorFacts.amount_check_cases parsed)
    as [(d1 & Ea & He1)|(msg & Ea)]; rewrite Ea in Hr; simpl in Hr.
  2:{ inversion Hr; subst rep. simpl. unfold report_status. simpl.
      rewrite He. simpl. split; [|now left].
      split; [intros _; right; eauto|reflexivity]. }
  destruct (ValidatorFacts.enrich_total db d1) as (d2 & Ee).
  rewrite Ee in Hr. simpl in Hr. inversion Hr; subst rep.
  simpl. unfold report_status.
  rewrite (CheckOrder.enrich_keeps_errors _ _ _ Ee), He1, He. simpl.
  split; [|now right]. split; [discriminate|].
  intros [(msg & C)|(msg & C)]; [rewrite Ed in C | rewrite Ea in C];
    discriminate C.
Qed.

Lemma rejection_causes_witness :
  dict_get (report (add_error
                      "Date logic violation: Recorded 2020-01-10 is before Signed 2020-01-05"
                      Samples.deed_dates)) "status"
  = Some (PyStr "REJECTED").
Proof.
  destruct (rejection_causes Samples.db_santa_clara Samples.text_dates
              Samples.deed_dates
              (report (add_error
                         "Date logic violation: Recorded 2020-01-10 is before Signed 2020-01-05"
                         Samples.deed_dates))
              eq_refl eq_refl) as [[_ H] _].
  apply H. left. eexists. reflexivity.
Defined.

End Pipeline.
(* ================================================================== *)
(** ** Printing a date and reading it back *)

Module DateRoundTrip.

Import Re ReFacts ReMore DeedParser ParserFacts DeedSpec.

Lemma lit_eq_refl ic c : lit_eq ic c c = true.
Proof. unfold lit_eq. destruct ic; apply Ascii.eqb_refl. Qed.

(** A literal word matches itself. *)
Lemma match_k_Str ic {R} : forall w s g (k : string -> list string -> option R),
  match_k ic (Str w) (w ++ s) g k = k s g.
Proof.
  induction w as [|c w IH]; intros s g k; simpl; [reflexivity|].
  rewrite lit_eq_refl. apply IH.
Qed.

(** A greedy repetition consumes a run of its class that ends where the
    class ends, when the rest of the pattern matches from there. *)
Lemma star_k_greedy {R} (p : ascii -> bool) (k : string -> option R) s x :
  (forall a s', s = String a s' -> p a = false) ->
  k s = Some x ->
  forall gap, PyStr.all_chars p gap = true -> star_k p (gap ++ s) k = Some x.
Proof.
  intros Hs Hk. induction gap as [|a gap IH]; simpl; intros H.
  - destruct s as [|a s']; [exact Hk|]. simpl.
    now rewrite (Hs a s' eq_refl).
  - apply andb_true_iff in H as [Ha Hg]. rewrite Ha, (IH Hg). reflexivity.
Qed.

Lemma match_k_Rep ic {R} p : forall n t s g (k : string -> list string -> option R),
  String.length t = n -> PyStr.all_chars p t = true ->
  match_k ic (Rep n p) (t ++ s) g k = k s g.
Proof.
  induction n as [|n IH]; intros [|a t] s g k Hl Ht; simpl in *;
    try discriminate; [reflexivity|].
  apply andb_true_iff in Ht as [Ha Ht]. rewrite Ha.
  apply IH; [now inversion Hl | exact Ht].
Qed.

Lemma match_k_Grp_Rep ic {R} p n t s g
  (k : string -> list string -> option R) :
  String.length t = n -> PyStr.all_chars p t = true ->
  match_k ic (Grp (Rep n p)) (t ++ s) g k = k s (g ++ [t])%list.
Proof.
  intros Hl Ht. simpl. rewrite (match_k_Rep ic p n t s g _ Hl Ht).
  now rewrite take_append.
Qed.

Lemma match_k_Seq ic {R} r1 r2 s g (k : string -> list string -> option R) :
  match_k ic (Seq r1 r2) s g k
  = match_k ic r1 s g (fun s1 g1 => match_k ic r2 s1 g1 k).
Proof. reflexivity. Qed.

Lemma match_k_Star ic {R} p s g (k : string -> list string -> option R) :
  match_k ic (Star p) s g k = star_k p s (fun s' => k s' g).
Proof. reflexivity. Qed.

Lemma match_k_Lit ic {R} c s g (k : string -> list string -> option R) :
  match_k ic (Lit c) (String c s) g k = k s g.
Proof. simpl. now rewrite lit_eq_refl. Qed.

Lemma search_here ic r s m :
  match_here ic r s = Some m -> search ic r s = Some m.
Proof. intros H. destruct s; simpl; now rewrite H. Qed.

(** The date pattern on a label, a gap without digits and three groups of
    digits. *)
Lemma search_date label gap y m d rest :
  PyStr.all_chars non_digit gap = true ->
  String.length y = 4%nat -> PyNum.all_digits y = true ->
  String.length m = 2%nat -> PyNum.all_digits m = true ->
  String.length d = 2%nat -> PyNum.all_digits d = true ->
  search true (pat_date label)
    (label ++ gap ++ y ++ String "-" (m ++ String "-" (d ++ rest)))
  = Some [y; m; d].
Proof.
  intros Hg Ly Hy Lm Hm Ld Hd. apply search_here.
  unfold match_here, pat_date. cbn [cat].
  rewrite match_k_Seq, match_k_Str, match_k_Seq, match_k_Star.
  apply star_k_greedy; [| |exact Hg].
  - intros a s' E. destruct y as [|c y]; [discriminate Ly|].
    simpl in E. inversion E; subst. unfold PyNum.all_digits in Hy.
    simpl in Hy. apply andb_true_iff in Hy as [Hc _].
    unfold non_digit. now rewrite Hc.
  - rewrite match_k_Seq, (match_k_Grp_Rep true PyStr.is_digit 4 y _ _ _ Ly Hy).
    rewrite match_k_Seq, match_k_Lit.
    rewrite match_k_Seq, (match_k_Grp_Rep true PyStr.is_digit 2 m _ _ _ Lm Hm).
    rewrite match_k_Seq, match_k_Lit.
    rewrite (match_k_Grp_Rep true PyStr.is_digit 2 d _ _ _ Ld Hd).
    reflexivity.
Qed.

Lemma in_upto n k : 0 <= k < Z.of_nat n -> In k (upto n).
Proof.
  intros H. unfold upto. apply in_map_iff. exists (Z.to_nat k).
  split; [lia|]. apply in_seq. lia.
Qed.

Lemma pad4_reads_back n : 0 <= n < 10000 -> pad_reads_back 4 n = true.
Proof.
  intros H.
  assert (A : forallb (pad_reads_back 4) (upto (100 * 100)) = true)
    by (vm_compute; reflexivity).
  rewrite forallb_forall in A. apply A. apply in_upto. simpl. lia.
Qed.

Lemma pad2_reads_back n : 0 <= n < 100 -> pad_reads_back 2 n = true.
Proof.
  intros H.
  assert (A : forallb (pad_reads_back 2) (upto 100) = true)
    by (vm_compute; reflexivity).
  rewrite forallb_forall in A. apply A. apply in_upto. simpl. lia.
Qed.

Lemma pad_reads_back_spec w n :
  pad_reads_back w n = true ->
  PyNum.all_digits (DateTime.pad w n) = true
  /\ String.length (DateTime.pad w n) = w
  /\ (w <> 0%nat -> PyNum.py_int (DateTime.pad w n) = Ok n).
Proof.
  unfold pad_reads_back. intros H.
  apply andb_true_iff in H as [H Hv]. apply andb_true_iff in H as [Hd Hl].
  apply Nat.eqb_eq in Hl. apply Z.eqb_eq in Hv.
  split; [exact Hd|]. split; [exact Hl|]. intros Hw. unfold PyNum.py_int.
  destruct (DateTime.pad w n) as [|a s] eqn:E; [simpl in Hl; lia|].
  now rewrite Hd, Hv.
Qed.

Lemma days_in_month_le y m : DateTime.days_in_month y m <= 31.
Proof.
  unfold DateTime.days_in_month.
  destruct (m =? 2); [destruct (DateTime.is_leap y); lia|].
  destruct (_ || _); lia.
Qed.

Lemma make_calendar t :
  DateSpec.calendar_date t ->
  DateTime.make (year t) (month t) (day t) = Ok t.
Proof.
  destruct t as [y m d h mi s u]. unfold DateSpec.calendar_date. simpl.
  intros (Hy & Hm & Hd & -> & -> & -> & ->). unfold DateTime.make.
  replace ((1 <=? y) && (y <=? 9999) && (1 <=? m) && (m <=? 12)
           && (1 <=? d) && (d <=? DateTime.days_in_month y m)) with true;
    [reflexivity|].
  symmetry. repeat (apply andb_true_iff; split); apply Z.leb_le; lia.
Qed.

(** [_parse_date] reads back the date [str_date] prints. *)
Lemma parse_date_printed t label gap rest :
  DateSpec.calendar_date t ->
  PyStr.all_chars non_digit gap = true ->
  _parse_date (label ++ gap ++ DateTime.str_date t ++ rest) label
  = Ok (Some t).
Proof.
  intros Hc Hg. pose proof (make_calendar t Hc) as Hmk.
  destruct Hc as (Hy & Hm & Hd & _).
  pose proof (days_in_month_le (year t) (month t)) as Hle.
  destruct (pad_reads_back_spec 4 (year t)) as (Dy & Ly & Iy);
    [apply pad4_reads_back; lia|].
  destruct (pad_reads_back_spec 2 (month t)) as (Dm & Lm & Im);
    [apply pad2_reads_back; lia|].
  destruct (pad_reads_back_spec 2 (day t)) as (Dd & Ld & Id);
    [apply pad2_reads_back; lia|].
  unfold _parse_date, DateTime.str_date.
  replace (label ++ gap
             ++ (DateTime.pad 4 (year t) ++ "-" ++ DateTime.pad 2 (month t)
                   ++ "-" ++ DateTime.pad 2 (day t)) ++ rest)
    with (label ++ gap ++ DateTime.pad 4 (year t)
            ++ String "-" (DateTime.pad 2 (month t)
                             ++ String "-" (DateTime.pad 2 (day t) ++ rest))).
  2:{ repeat (rewrite NumFacts.append_assoc; simpl). reflexivity. }
  rewrite (search_date label gap _ _ _ rest Hg Ly Dy Lm Dm Ld Dd).
  cbn [group nth_error Nat.pred rbind].
  rewrite Iy by discriminate. cbn [group nth_error Nat.pred rbind].
  rewrite Im by discriminate. cbn [group nth_error Nat.pred rbind].
  rewrite Id by discriminate. cbn [rbind].
  rewrite Hmk. reflexivity.
Qed.



End DateRoundTrip.
(* ================================================================== *)
(** ** The written amount [parse] extracts *)

Module WrittenExtraction.

Import Re ReSem ReFacts ReMore DeedParser ParserFacts.

Lemma prefix_append w b : String.prefix w (w ++ b) = true.
Proof.
  induction w as [|c w IH]; simpl; [now destruct b|].
  destruct (ascii_dec c c) as [_|N]; [exact IH | now contradiction N].
Qed.

Lemma contains_here w s : String.prefix w s = true -> PyStr.contains w s = true.
Proof. intros H. destruct s; cbn [PyStr.contains]; now rewrite H. Qed.

Lemma contains_skip w a s :
  PyStr.contains w s = true -> PyStr.contains w (String a s) = true.
Proof. intros H. cbn [PyStr.contains]. rewrite H. apply orb_true_r. Qed.

Lemma contains_middle w a b : PyStr.contains w (a ++ w ++ b) = true.
Proof.
  induction a as [|c a IH]; simpl append.
  - apply contains_here, prefix_append.
  - now apply contains_skip.
Qed.

Lemma prefix_empty_false c w : String.prefix (String c w) "" = false.
Proof. reflexivity. Qed.

Lemma contains_empty_false c w : PyStr.contains (String c w) "" = false.
Proof. reflexivity. Qed.

(** A word that starts with no white space survives [lstrip]. *)
Lemma contains_lstrip c w : PyStr.is_space c = false -> forall s,
  PyStr.contains (String c w) s = true ->
  PyStr.contains (String c w) (PyStr.lstrip s) = true.
Proof.
  intros Hc. induction s as [|a s IH]; intros H; [exact H|].
  cbn [PyStr.lstrip]. destruct (PyStr.is_space a) eqn:Ea; [|exact H].
  apply IH. cbn [PyStr.contains] in H.
  apply orb_true_iff in H as [H|H]; [|exact H].
  simpl in H. destruct (ascii_dec c a) as [->|_]; [|discriminate].
  rewrite Ea in Hc. discriminate.
Qed.

Lemma rstrip_cons a s :
  PyStr.rstrip s <> "" -> PyStr.rstrip (String a s) = String a (PyStr.rstrip s).
Proof. intros H. simpl. now destruct (PyStr.rstrip s). Qed.

Lemma rstrip_keeps a s :
  PyStr.is_space a = false ->
  exists t, PyStr.rstrip (String a s) = String a t.
Proof.
  intros H. simpl. destruct (PyStr.rstrip s); [rewrite H|]; eauto.
Qed.

(** A prefix without white space survives [rstrip]. *)
Lemma prefix_rstrip : forall w s,
  w <> "" -> PyStr.all_chars non_space w = true ->
  String.prefix w s = true -> String.prefix w (PyStr.rstrip s) = true.
Proof.
  induction w as [|c w IH]; intros s Hne Hw H; [contradiction|].
  destruct s as [|a s]; [discriminate|].
  simpl in H. destruct (ascii_dec c a) as [->|_]; [|discriminate].
  simpl in Hw. apply andb_true_iff in Hw as [Ha Hw].
  unfold non_space in Ha. apply negb_true_iff in Ha.
  destruct w as [|c' w].
  - destruct (rstrip_keeps a s Ha) as (t & ->). simpl.
    destruct (ascii_dec a a) as [_|N]; [now destruct t | now contradiction N].
  - assert (P : String.prefix (String c' w) (PyStr.rstrip s) = true)
      by (apply IH; [discriminate | exact Hw | exact H]).
    rewrite rstrip_cons.
    + simpl. destruct (ascii_dec a a) as [_|N]; [exact P|now contradiction N].
    + intros E. rewrite E in P. discriminate.
Qed.

Lemma contains_rstrip w : w <> "" -> PyStr.all_chars non_space w = true ->
  forall s, PyStr.contains w s = true ->
            PyStr.contains w (PyStr.rstrip s) = true.
Proof.
  intros Hne Hw. induction s as [|a s IH]; intros H; [exact H|].
  cbn [PyStr.contains] in H. apply orb_true_iff in H as [H|H].
  - apply contains_here. now apply prefix_rstrip.
  - pose proof (IH H) as C. rewrite rstrip_cons.
    + now apply contains_skip.
    + intros E. rewrite E in C. destruct w; [contradiction|discriminate].
Qed.

Lemma contains_strip w s :
  w <> "" -> PyStr.all_chars non_space w = true ->
  PyStr.contains w s = true -> PyStr.contains w (PyStr.strip s) = true.
Proof.
  intros Hne Hw H. unfold PyStr.strip. apply contains_rstrip; try assumption.
  destruct w as [|c w]; [contradiction|]. apply contains_lstrip; [|exact H].
  simpl in Hw. apply andb_true_iff in Hw as [Hc _].
  unfold non_space in Hc. now apply negb_true_iff in Hc.
Qed.

(** A literal word, matched with case, consumes itself. *)
Lemma run_Str w : forall s g s' g',
  run false (Str w) s g s' g' -> s = w ++ s'.
Proof.
  induction w as [|c w IH]; simpl; intros s g s' g' H.
  - now inversion H.
  - inversion H as [ | | | | |? ? ? ? ? ? ? ? Ha Hb| | | ]; subst.
    inversion Ha; subst.
    match goal with E : lit_eq false c _ = true |- _ =>
      unfold lit_eq in E; apply Ascii.eqb_eq in E; subst end.
    now rewrite (IH _ _ _ _ Hb).
Qed.

(** The written amount, when [parse] finds one, mentions [Million] or
    [Thousand] even after it is stripped; so the amount check always looks
    for a number before one of these words in it. *)
Theorem written_amount_mentions_unit (raw : string) (v : string) :
  parse_amount_written raw = Ok (Some v) ->
  (PyStr.contains "Million" v || PyStr.contains "Thousand" v) = true.
Proof.
  unfold parse_amount_written. intros H.
  destruct (search false pat_written raw) as [m|] eqn:E; [|discriminate].
  destruct (search_sound _ _ _ _ E) as (s0 & s' & Hr).
  unfold pat_written in Hr. cbn [cat] in Hr.
  apply run_skip in Hr as (s1 & Hr); [|reflexivity].
  inversion Hr as [ | | | | |? ? ? ? s2 g2 ? ? Hg Hp| | | ]; subst.
  inversion Hp; subst.
  inversion Hg as [ | | | | | | | |? ? ? ? g3 Hb]; subst.
  assert (g3 = []) as ->
    by (eapply run_no_groups; [exact Hb | reflexivity]).
  simpl in H. inversion H as [Hv]. clear H Hv.
  inversion Hb as [ | | | | |? ? ? ? s3 g3 ? ? Ra Rbc| | | ]; subst.
  inversion Rbc as [ | | | | |? ? ? ? s4 g4 ? ? Rb Rc| | | ]; subst.
  destruct (NumFacts.run_star_chars _ _ _ _ _ _ Ra) as (t1 & _ & ->).
  destruct (NumFacts.run_star_chars _ _ _ _ _ _ Rc) as (t3 & _ & ->).
  inversion Rb as [ | | | | | |? ? ? ? ? ? Hm|? ? ? ? ? ? Ht| ]; subst.
  - apply (run_Str "Million") in Hm. subst. apply orb_true_iff. left.
    apply contains_strip; [discriminate | reflexivity|].
    match goal with |- context [PyStr.take _ (t1 ++ ?u ++ t3 ++ ?z)] =>
      replace (t1 ++ u ++ t3 ++ z) with ((t1 ++ u ++ t3) ++ z)
        by (now rewrite !NumFacts.append_assoc)
    end.
    rewrite take_append. apply contains_middle.
  - apply (run_Str "Thousand") in Ht. subst. apply orb_true_iff. right.
    apply contains_strip; [discriminate | reflexivity|].
    match goal with |- context [PyStr.take _ (t1 ++ ?u ++ t3 ++ ?z)] =>
      replace (t1 ++ u ++ t3 ++ z) with ((t1 ++ u ++ t3) ++ z)
        by (now rewrite !NumFacts.append_assoc)
    end.
    rewrite take_append. apply contains_middle.
Qed.

Lemma written_amount_mentions_unit_witness :
  (PyStr.contains "Million" "Two Million"
   || PyStr.contains "Thousand" "Two Million") = true.
Proof.
  exact (written_amount_mentions_unit Samples.text_two_million "Two Million"
           eq_refl).
Defined.

End WrittenExtraction.
(* ================================================================== *)
(** ** The serialized deed determines the deed *)

Module SerializationMore.

Import DeedSpec.

Lemma isoformat_inj t1 t2 :
  DateSpec.calendar_date t1 -> DateSpec.calendar_date t2 ->
  DateTime.isoformat t1 = DateTime.isoformat t2 -> t1 = t2.
Proof.
  intros H1 H2 E.
  pose proof (DateRoundTrip.parse_date_printed t1 "" ""
                (String "T" (DateTime.pad 2 (hour t1) ++ ":"
                   ++ DateTime.pad 2 (minute t1) ++ ":"
                   ++ DateTime.pad 2 (second t1)
                   ++ (if microsecond t1 =? 0 then ""
                       else "." ++ DateTime.pad 6 (microsecond t1))))
                H1 eq_refl) as P1.
  pose proof (DateRoundTrip.parse_date_printed t2 "" ""
                (String "T" (DateTime.pad 2 (hour t2) ++ ":"
                   ++ DateTime.pad 2 (minute t2) ++ ":"
                   ++ DateTime.pad 2 (second t2)
                   ++ (if microsecond t2 =? 0 then ""
                       else "." ++ DateTime.pad 6 (microsecond t2))))
                H2 eq_refl) as P2.
  unfold DateTime.isoformat in E. simpl append in E, P1, P2.
  rewrite E in P1. rewrite P1 in P2. now inversion P2.
Qed.

Lemma py_opt_str_inj a b : py_opt_str a = py_opt_str b -> a = b.
Proof. destruct a, b; simpl; intros H; now inversion H. Qed.

Lemma py_opt_float_inj a b : py_opt_float a = py_opt_float b -> a = b.
Proof. destruct a, b; simpl; intros H; now inversion H. Qed.

Lemma py_opt_iso_inj a b :
  (forall t, a = Some t -> DateSpec.calendar_date t) ->
  (forall t, b = Some t -> DateSpec.calendar_date t) ->
  py_opt_iso a = py_opt_iso b -> a = b.
Proof.
  destruct a as [t1|], b as [t2|]; simpl; intros Ha Hb H;
    inversion H; [|reflexivity].
  f_equal. apply isoformat_inj; auto.
Qed.

(** [to_dict] loses nothing: two deeds whose dates are calendar dates, as
    the dates [parse] produces are, and that serialize to the same
    dictionary are the same deed. *)
Theorem to_dict_determines_deed (d1 d2 : DeedData) :
  calendar_dates d1 -> calendar_dates d2 ->
  to_dict d1 = to_dict d2 -> d1 = d2.
Proof.
  intros [S1 R1] [S2 R2] H. destruct d1, d2. unfold to_dict in H.
  simpl in *. inversion H.
  repeat match goal with
         | E : py_opt_str _ = py_opt_str _ |- _ =>
             apply py_opt_str_inj in E
         | E : py_opt_float _ = py_opt_float _ |- _ =>
             apply py_opt_float_inj in E
         end.
  match goal with
  | E : py_opt_iso date_signed0 = py_opt_iso date_signed1 |- _ =>
      apply (py_opt_iso_inj _ _ S1 S2) in E
  end.
  match goal with
  | E : py_opt_iso date_recorded0 = py_opt_iso date_recorded1 |- _ =>
      apply (py_opt_iso_inj _ _ R1 R2) in E
  end.
  subst. reflexivity.
Qed.

Lemma to_dict_determines_deed_witness :
  annotate [] [] None Samples.deed_dates = Samples.deed_dates.
Proof.
  assert (C : calendar_dates Samples.deed_dates).
  { split; intros t E; inversion E; subst;
      unfold DateSpec.calendar_date; cbn; lia. }
  exact (to_dict_determines_deed (annotate [] [] None Samples.deed_dates)
           Samples.deed_dates C C eq_refl).
Defined.

End SerializationMore.
